(** * AI-Recruitment-Agency: a shallow embedding of the Python sources

    The repository glues third-party services together: document loaders,
    a text splitter, a vector store, a chat model, the Gmail and Calendar
    APIs.  The embedding keeps the control flow of the repository's own
    functions (what is inside a [try], what is printed, what is returned,
    what is raised) and takes every call into a library as an oracle whose
    outcome is either a value or a raised exception.

    Files covered:
    - [src/RAG.py]               (module [RAG])
    - [src/email_candidate.py]   (module [EmailCandidate])
    - [src/meeting_scheduler.py] (module [Scheduler])                       *)

From Stdlib Require Import String Ascii List ZArith QArith Bool Arith Lia.
From Stdlib Require Import DecimalString.
Import ListNotations.
Local Close Scope Q_scope.
Local Open Scope list_scope.
Local Open Scope string_scope.

Set Implicit Arguments.

(* ===================================================================== *)
(** * Python runtime: exceptions, results, the effect monad               *)
(* ===================================================================== *)

Module Py.

(** Exception classes the sources name or can meet.  [KeyboardInterrupt]
    stands for the classes that derive from [BaseException] only: an
    [except Exception] clause does not catch them. *)
Inductive exc_class : Set :=
| HttpError
| ValueError
| KeyError
| OSError
| OutputParserException
| OtherException
| KeyboardInterrupt.

Record exn : Set := mk_exn { exn_class : exc_class; exn_msg : string }.

(** [isinstance(e, Exception)] *)
Definition is_Exception (e : exn) : bool :=
  match exn_class e with
  | KeyboardInterrupt => false
  | _ => true
  end.

(** [isinstance(e, HttpError)] *)
Definition is_HttpError (e : exn) : bool :=
  match exn_class e with
  | HttpError => true
  | _ => false
  end.

(** Outcome of a call: a returned value or a raised exception. *)
Inductive result (A : Type) : Type :=
| Return (a : A)
| Raise (e : exn).
Arguments Return {A} a.
Arguments Raise {A} e.

(** Interpreter state: what was printed so far (oldest first) and a
    module specific world [W] (files, calls made to outside services). *)
Record State (W : Type) : Type := mk_state {
  stdout : list string;
  world : W
}.
Arguments mk_state {W} _ _.

Definition M (W A : Type) : Type := State W -> result A * State W.

Definition ret {W A} (a : A) : M W A := fun s => (Return a, s).

Definition raise {W A} (e : exn) : M W A := fun s => (Raise e, s).

Definition bind {W A B} (m : M W A) (k : A -> M W B) : M W B :=
  fun s =>
    match m s with
    | (Return a, s') => k a s'
    | (Raise e, s') => (Raise e, s')
    end.

(** Outcome of a library call, brought into the monad. *)
Definition call {W A} (r : result A) : M W A := fun s => (r, s).

(** [print(line)] *)
Definition print {W} (line : string) : M W unit :=
  fun s => (Return tt, mk_state (stdout s ++ [line])%list (world s)).

Definition get_world {W} : M W W := fun s => (Return (world s), s).

Definition set_world {W} (w : W) : M W unit :=
  fun s => (Return tt, mk_state (stdout s) w).

(** [try: body  except <class>: handler ...]  The clauses are tried in
    order; an exception no clause accepts goes on to the caller. *)
Fixpoint dispatch {W A} (clauses : list ((exn -> bool) * (exn -> M W A)))
         (e : exn) : M W A :=
  match clauses with
  | [] => raise e
  | (accepts, handler) :: rest =>
      if accepts e then handler e else dispatch rest e
  end.

Definition try_except {W A} (body : M W A)
           (clauses : list ((exn -> bool) * (exn -> M W A))) : M W A :=
  fun s =>
    match body s with
    | (Return a, s') => (Return a, s')
    | (Raise e, s') => dispatch clauses e s'
    end.

(** [for x in xs: acc = body(acc, x)] with the loop variable state [acc]. *)
Fixpoint for_each {W A X} (xs : list X) (acc : A) (body : A -> X -> M W A)
  : M W A :=
  match xs with
  | [] => ret acc
  | x :: xs' => bind (body acc x) (fun acc' => for_each xs' acc' body)
  end.

(** [with resource: body]: [exit] runs whether the body returns or raises;
    an exception of [exit] replaces the one of the body. *)
Definition with_exit {W A} (body : M W A) (exit : M W unit) : M W A :=
  fun s =>
    match body s with
    | (Return a, s') =>
        match exit s' with
        | (Return _, s'') => (Return a, s'')
        | (Raise e', s'') => (Raise e', s'')
        end
    | (Raise e, s') =>
        match exit s' with
        | (Return _, s'') => (Raise e, s'')
        | (Raise e', s'') => (Raise e', s'')
        end
    end.

(** The line feed character and the double quote, which string literals
    of this file cannot hold. *)
Definition LF : string := String (ascii_of_nat 10) EmptyString.
Definition DQ : string := String (ascii_of_nat 34) EmptyString.

(** [str(n)] for a non-negative [len(...)] and [str(z)] for an [int]. *)
Definition str_nat (n : nat) : string := NilEmpty.string_of_uint (Nat.to_uint n).
Definition str_int (z : Z) : string := NilZero.string_of_int (Z.to_int z).

(** [s.endswith(suffix)] *)
Definition endswith (s suffix : string) : bool :=
  let n := String.length s in
  let m := String.length suffix in
  (m <=? n)%nat && String.eqb (substring (n - m) m s) suffix.

(** [sep.join(parts)] *)
Definition join (sep : string) (parts : list string) : string :=
  String.concat sep parts.

(** Values a JSON text parses to. *)
#[local] Unset Elimination Schemes.
Inductive json : Type :=
| JNull
| JBool (b : bool)
| JInt (z : Z)
| JFloat (q : Q)
| JStr (s : string)
| JList (items : list json)
| JDict (fields : list (string * json)).
#[local] Set Elimination Schemes.

(** [d.get(key)]: the first binding of [key], [None] when absent. *)
Fixpoint dict_get {V} (fields : list (string * V)) (key : string) : option V :=
  match fields with
  | [] => None
  | (k, v) :: rest => if String.eqb k key then Some v else dict_get rest key
  end.

(** [d[key]]: raises [KeyError] when the key is absent. *)
Definition dict_getitem {V} (fields : list (string * V)) (key : string)
  : result V :=
  match dict_get fields key with
  | Some v => Return v
  | None => Raise (mk_exn KeyError ("'" ++ key ++ "'"))
  end.

(** [os.path.join(a, b)] on a POSIX system. *)
Definition os_path_join (a b : string) : string :=
  if String.prefix "/" b then b
  else if String.eqb a "" || endswith a "/" then a ++ b
  else a ++ "/" ++ b.

(** Truth value of a list ([if not documents]) and of an optional string
    ([creds.refresh_token]: [None] and the empty string are false). *)
Definition truthy_list {A} (l : list A) : bool :=
  match l with [] => false | _ :: _ => true end.

Definition truthy_opt_str (o : option string) : bool :=
  match o with
  | Some s => negb (String.eqb s "")
  | None => false
  end.

End Py.

Import Py.

Declare Scope py_scope.
Delimit Scope py_scope with py.
Notation "x <- m ;; k" := (bind m (fun x => k))
  (at level 61, m at next level, right associativity) : py_scope.
Notation "m ;;; k" := (bind m (fun _ => k))
  (at level 61, right associativity) : py_scope.
Local Open Scope py_scope.

(** Symbolic execution of the monad's primitives. *)
Ltac run := unfold bind, ret, raise, call, print, get_world, set_world; simpl.

(* ===================================================================== *)
(** * The [re] fragment used by [extract_email_from_text]                 *)
(* ===================================================================== *)

Module Re.

(** Text is a sequence of characters below code point 128; [\w] is then
    letters, digits and the underscore.  On text with other characters
    Python's [\b] also counts accented letters as word characters, which
    this definition does not: the statements below are about ASCII text or
    do not depend on where the boundaries are. *)
Definition between (lo c hi : ascii) : bool :=
  (nat_of_ascii lo <=? nat_of_ascii c)%nat && (nat_of_ascii c <=? nat_of_ascii hi)%nat.

Definition is_upper (c : ascii) : bool := between "A" c "Z".
Definition is_lower (c : ascii) : bool := between "a" c "z".
Definition is_digit (c : ascii) : bool := between "0" c "9".
Definition is_letter (c : ascii) : bool := is_upper c || is_lower c.
Definition is_word (c : ascii) : bool :=
  is_letter c || is_digit c || Ascii.eqb c "_".

(** One of the characters of [set]: a bracket expression lists them. *)
Definition one_of (set : string) (c : ascii) : bool :=
  existsb (Ascii.eqb c) (list_ascii_of_string set).

(** Pattern items: [\b], one literal character, and a greedy repeat
    [set{lo,hi}] / [set+] of a one-character set. *)
Inductive item : Type :=
| WordBoundary
| Literal (c : ascii)
| MaxRepeat (lo : nat) (hi : option nat) (set : ascii -> bool).

Definition word_at (s : list ascii) (i : nat) : bool :=
  match nth_error s i with
  | Some c => is_word c
  | None => false
  end.

(** [\b] holds at [i] when exactly one of the characters before and after
    position [i] is a word character (outside the text counts as not). *)
Definition at_boundary (s : list ascii) (i : nat) : bool :=
  let before := match i with O => false | S j => word_at s j end in
  xorb before (word_at s i).

(** Length of the longest run of [set] characters from [i], at most
    [limit] of them. *)
Fixpoint run_length (set : ascii -> bool) (rest : list ascii) (limit : nat)
  : nat :=
  match limit, rest with
  | S limit', c :: rest' =>
      if set c then S (run_length set rest' limit') else O
  | _, _ => O
  end.

(** Greedy choice with backtracking: try [lo + extra] repetitions, then
    one fewer each time, down to [lo]. *)
Fixpoint try_down (k : nat -> option nat) (lo extra : nat) : option nat :=
  match k (lo + extra)%nat with
  | Some j => Some j
  | None =>
      match extra with
      | O => None
      | S extra' => try_down k lo extra'
      end
  end.

(** Match the items from position [i]; the result is the end position of
    the match the backtracking engine finds first. *)
Fixpoint match_here (p : list item) (s : list ascii) (i : nat) : option nat :=
  match p with
  | [] => Some i
  | WordBoundary :: p' =>
      if at_boundary s i then match_here p' s i else None
  | Literal c :: p' =>
      match nth_error s i with
      | Some d => if Ascii.eqb c d then match_here p' s (S i) else None
      | None => None
      end
  | MaxRepeat lo hi set :: p' =>
      let limit := match hi with
                   | Some h => h
                   | None => List.length s
                   end in
      let n := run_length set (skipn i s) limit in
      if (lo <=? n)%nat
      then try_down (fun k => match_here p' s (i + k)) lo (n - lo)
      else None
  end.

(** [re.search]: the first start position, scanning left to right, from
    which the pattern matches. [fuel] counts the start positions left. *)
Fixpoint search_from (p : list item) (s : list ascii) (i fuel : nat)
  : option (nat * nat) :=
  match match_here p s i with
  | Some j => Some (i, j)
  | None =>
      match fuel with
      | O => None
      | S fuel' => search_from p s (S i) fuel'
      end
  end.

Definition search (p : list item) (s : list ascii) : option (nat * nat) :=
  search_from p s 0 (List.length s).

(** [match.group(0)] *)
Definition group0 (text : string) (m : nat * nat) : string :=
  substring (fst m) (snd m - fst m) text.

End Re.

(* ===================================================================== *)
(** * [src/RAG.py]                                                        *)
(* ===================================================================== *)

Module RAG.
Import Re.

(** [langchain_core.documents.Document] *)
Record Document : Type := mk_document {
  page_content : string;
  metadata : list (string * string)
}.

(** A constructed loader; [load] is the outcome of [loader.load()]. *)
Record Loader : Type := mk_loader { load : result (list Document) }.

(** The vector store [Chroma.from_documents] returns: the chunks it
    indexed, the embedding model and where it persists. *)
Record Chroma : Type := mk_chroma {
  indexed : list Document;
  embedding : string;
  persist_directory : string
}.

(** [vectorstore.as_retriever(search_kwargs={"k": k})] *)
Record Retriever : Type := mk_retriever { store : Chroma; k : nat }.

(** An open PyMuPDF document: the outcome of [get_text()] on each page in
    page order, and the outcome of closing it when the [with] block ends. *)
Record PdfDoc : Type := mk_pdf {
  pages : list (result string);
  close : result unit
}.

(** A chat model: the outcome of its [n]-th invocation on a prompt.  The
    model may answer the same prompt differently each time. *)
Definition LLM : Type := nat -> string -> result string.

(** The libraries [RAG.py] calls. *)
Record Env : Type := mk_env {
  listdir : string -> result (list string);
  PyPDFLoader : string -> result Loader;
  Docx2txtLoader : string -> result Loader;
  (* RecursiveCharacterTextSplitter(chunk_size, chunk_overlap,
     length_function=len).split_documents *)
  split_documents : nat -> nat -> list Document -> result (list Document);
  HuggingFaceEmbeddings : string -> result string;
  Chroma_from_documents : list Document -> string -> string -> result Chroma;
  retriever_invoke : Retriever -> string -> result (list Document);
  JsonOutputParser : string -> result json;
  fitz_open : string -> result PdfDoc
}.

(** What the outside world has seen: the vector stores built, the
    retrievals made with their outcome, the inputs handed to the chain and
    the prompts sent to the model (oldest first). *)
Record World : Type := mk_world {
  vector_dbs : list Chroma;
  retrievals : list (string * nat * result (list Document));
  chain_inputs : list (list (string * string));
  prompts : list string
}.

Definition world0 : World := mk_world [] [] [] [].

(** [PromptTemplate]: literal text and [{name}] fields. *)
Inductive segment : Type :=
| Text (s : string)
| Field (name : string).

Definition PromptTemplate : Type := list segment.

(** [template.format] with the inputs as keyword arguments. *)
Fixpoint format (t : PromptTemplate) (inputs : list (string * string))
  : result string :=
  match t with
  | [] => Return ""
  | Text s :: t' =>
      match format t' inputs with
      | Return rest => Return (s ++ rest)
      | Raise e => Raise e
      end
  | Field name :: t' =>
      match dict_getitem inputs name with
      | Return v =>
          match format t' inputs with
          | Return rest => Return (v ++ rest)
          | Raise e => Raise e
          end
      | Raise e => Raise e
      end
  end.

Record ResumeRAG : Type := mk_rag {
  folder_path : string;
  llm : LLM;
  vectorstore : Chroma;
  prompt_template : PromptTemplate
}.

Section WithEnv.
Variable env : Env.

(** [ResumeRAG._load_documents_from_folder]: the body of the [for] loop,
    with [documents] as the loop state. *)
Definition load_entry (folder : string) (documents : list Document)
           (filename : string) : M World (list Document) :=
  let file_path := os_path_join folder filename in
  let try_load (loader : Loader) : M World (list Document) :=
    try_except
      (loaded <- call (load loader) ;;
       ret (documents ++ loaded)%list)
      [ (is_Exception,
         fun e => print ("Error loading file " ++ filename ++ ": " ++ exn_msg e) ;;;
                  ret documents) ] in
  if endswith filename ".pdf" then
    loader <- call (PyPDFLoader env file_path) ;;
    try_load loader
  else if endswith filename ".docx" then
    loader <- call (Docx2txtLoader env file_path) ;;
    try_load loader
  else
    print ("Unsupported file type skipped: " ++ filename) ;;;
    ret documents.

Definition _load_documents_from_folder (folder : string)
  : M World (list Document) :=
  names <- call (listdir env folder) ;;
  for_each names [] (load_entry folder).

(** [Chroma.from_documents(documents=, embedding=, persist_directory=)] *)
Definition chroma_from_documents (splits : list Document)
           (embeddings directory : string) : M World Chroma :=
  db <- call (Chroma_from_documents env splits embeddings directory) ;;
  w <- get_world ;;
  set_world (mk_world (vector_dbs w ++ [db])%list (retrievals w)
                      (chain_inputs w) (prompts w)) ;;;
  ret db.

Definition no_documents : exn :=
  mk_exn ValueError "No documents found in the specified folder.".

Definition _load_and_process_documents (folder : string) : M World Chroma :=
  print ("Loading documents from: " ++ folder) ;;;
  documents <- _load_documents_from_folder folder ;;
  print ("Loaded " ++ str_nat (List.length documents) ++ " documents.") ;;;
  if negb (truthy_list documents) then raise no_documents
  else
    splits <- call (split_documents env 1000 200 documents) ;;
    print ("Split documents into " ++ str_nat (List.length splits) ++ " chunks.") ;;;
    embeddings <- call (HuggingFaceEmbeddings env "sentence-transformers/all-MiniLM-L6-v2") ;;
    print "Creating vector database..." ;;;
    db <- chroma_from_documents splits embeddings "./chroma_db" ;;
    print "Vector database created successfully." ;;;
    ret db.

Definition _get_prompt_template : PromptTemplate :=
  [ Text LF;
    Text ("            You are an expert HR screening assistant. Your task is to analyze the provided resume context and generate two numerical ratings based on specific criteria." ++ LF);
    Text LF;
    Text ("            **Context from Resume:**" ++ LF);
    Text ("            ---" ++ LF);
    Text "            ";
    Field "context";
    Text LF;
    Text ("            ---" ++ LF);
    Text LF;
    Text ("            **Evaluation Criteria:**" ++ LF);
    Text LF;
    Text "            1.  **Work Experience:** The ideal candidate has at least **";
    Field "required_experience";
    Text (" years** of total work experience." ++ LF);
    Text "            2.  **Skills:** The ideal candidate has expertise in the following technologies: **";
    Field "required_skills";
    Text ("**." ++ LF);
    Text LF;
    Text ("            **Instructions:**" ++ LF);
    Text LF;
    Text ("            1.  **For 'work_ex_rating':** Carefully review the context to determine the candidate's total work experience." ++ LF);
    Text "                - If the candidate has ";
    Field "required_experience";
    Text (" or more years of experience, rate them between 8 and 10." ++ LF);
    Text ("                - If they have less, provide a proportionally lower score." ++ LF);
    Text ("                - If no work experience is mentioned, the score is 0." ++ LF);
    Text LF;
    Text "            2.  **For 'skills_rating':** Carefully review the context for mentions of the required skills (";
    Field "required_skills";
    Text (")." ++ LF);
    Text ("                - The score should reflect how many of the required skills are present. A candidate with all skills should receive a high score (8-10)." ++ LF);
    Text ("                - If proficiency levels are mentioned (e.g., " ++ DQ ++ "expert," ++ DQ ++ " " ++ DQ ++ "advanced" ++ DQ ++ "), consider that in your rating." ++ LF);
    Text ("                - If no relevant skills are mentioned, the score is 0." ++ LF);
    Text LF;
    Text ("            **Output Format:**" ++ LF);
    Text ("            Provide your response ONLY as a JSON object with two keys: " ++ DQ ++ "work_ex_rating" ++ DQ ++ " and " ++ DQ ++ "skills_rating" ++ DQ ++ "." ++ LF);
    Text "            " ].

Definition __init__ (folder : string) (model : LLM) : M World ResumeRAG :=
  db <- _load_and_process_documents folder ;;
  ret (mk_rag folder model db _get_prompt_template).

(** [retriever.invoke(query)] *)
Definition invoke_retriever (r : Retriever) (query : string)
  : M World (list Document) :=
  let outcome := retriever_invoke env r query in
  w <- get_world ;;
  set_world (mk_world (vector_dbs w) (retrievals w ++ [(query, k r, outcome)])%list
                      (chain_inputs w) (prompts w)) ;;;
  call outcome.

(** [(prompt_template | llm | JsonOutputParser()).invoke(inputs)] *)
Definition chain_invoke (self : ResumeRAG) (inputs : list (string * string))
  : M World json :=
  w <- get_world ;;
  set_world (mk_world (vector_dbs w) (retrievals w)
                      (chain_inputs w ++ [inputs])%list (prompts w)) ;;;
  prompt <- call (format (prompt_template self) inputs) ;;
  w <- get_world ;;
  set_world (mk_world (vector_dbs w) (retrievals w)
                      (chain_inputs w) (prompts w ++ [prompt])%list) ;;;
  message <- call (llm self (List.length (prompts w)) prompt) ;;
  call (JsonOutputParser env message).

Definition retriever_query (required_experience_years : Z)
           (required_skills_str : string) : string :=
  "A candidate with at least " ++ str_int required_experience_years
  ++ " years of work experience " ++ "and expertise in "
  ++ required_skills_str ++ ".".

Definition rate_candidate (self : ResumeRAG) (required_experience_years : Z)
           (required_skills_list : list string) : M World json :=
  let required_skills_str := join ", " required_skills_list in
  let query := retriever_query required_experience_years required_skills_str in
  print (LF ++ "Retrieving documents for query: '" ++ query ++ "'") ;;;
  let retriever := mk_retriever (vectorstore self) 5 in
  relevant_docs <- invoke_retriever retriever query ;;
  let context_text := join (LF ++ LF) (map page_content relevant_docs) in
  print "Invoking LLM to generate ratings..." ;;;
  ratings <- chain_invoke self
               [ ("context", context_text);
                 ("required_experience", str_int required_experience_years);
                 ("required_skills", required_skills_str) ] ;;
  ret ratings.

(** [get_text_from_pdf] *)
Definition get_text_from_pdf (pdf_path : string) : M World string :=
  try_except
    (doc <- call (fitz_open env pdf_path) ;;
     full_text <- with_exit
                    (for_each (pages doc) ""
                       (fun full_text page =>
                          text <- call page ;;
                          ret (full_text ++ text)))
                    (call (close doc)) ;;
     ret full_text)
    [ (is_Exception,
       fun e => print ("Error reading PDF " ++ pdf_path ++ ": " ++ exn_msg e) ;;;
                ret "") ].

End WithEnv.

(** [r'\b[A-Za-z0-9._%+-]+@[A-Za-z0-9.-]+\.[A-Z|a-z]{2,7}\b'] *)
Definition email_pattern : list item :=
  [ WordBoundary;
    MaxRepeat 1 None (fun c => is_upper c || is_lower c || is_digit c || one_of "._%+-" c);
    Literal "@";
    MaxRepeat 1 None (fun c => is_upper c || is_lower c || is_digit c || one_of ".-" c);
    Literal ".";
    MaxRepeat 2 (Some 7) (fun c => is_upper c || one_of "|" c || is_lower c);
    WordBoundary ].

Definition extract_email_from_text (text : string) : option string :=
  match search email_pattern (list_ascii_of_string text) with
  | Some m => Some (group0 text m)
  | None => None
  end.

End RAG.

(* ===================================================================== *)
(** * Google client libraries shared by the two API scripts               *)
(* ===================================================================== *)

Module Google.

(** [google.oauth2.credentials.Credentials], as far as the scripts look. *)
Record Credentials : Type := mk_creds {
  valid : bool;
  expired : bool;
  refresh_token : option string;
  to_json : string
}.

(** The resource object [build(api, version, credentials=creds)] returns. *)
Record Service : Type := mk_service {
  api : string;
  version : string;
  credentials : Credentials
}.

(** [email.message.EmailMessage] *)
Record EmailMessage : Type := mk_message {
  content : string;
  headers : list (string * string)
}.

(** A response or request body of the APIs: a dict. *)
Definition dict : Type := list (string * json).

Record Env : Type := mk_env {
  (* Credentials.from_authorized_user_file(path, scopes), given the
     content of the file *)
  from_authorized_user_file : string -> string -> list string -> result Credentials;
  (* creds.refresh(Request()): the refreshed credentials *)
  refresh : Credentials -> result Credentials;
  (* InstalledAppFlow.from_client_secrets_file(path, scopes)
       .run_local_server(port=0) *)
  run_local_server : string -> list string -> result Credentials;
  (* open(path, "w") *)
  open_write : string -> result unit;
  build : string -> string -> Credentials -> result Service;
  (* base64.urlsafe_b64encode(message.as_bytes()).decode() *)
  encode_message : EmailMessage -> result string;
  (* service.users().messages().send(userId=, body={"raw": raw}).execute() *)
  messages_send : Service -> string -> string -> result dict;
  (* service.events().insert(calendarId=, body=, sendNotifications=,
       conferenceDataVersion=).execute() *)
  events_insert : Service -> string -> json -> bool -> Z -> result dict;
  (* datetime.datetime.now().timestamp(), formatted, at the n-th request *)
  timestamp_now : nat -> string;
  (* str() of a list, dict or float *)
  repr : json -> string
}.

(** The token file (its content when it exists) and the requests that
    reached the APIs. *)
Record World : Type := mk_world {
  token_file : option string;
  sent : list (string * string);
  inserted : list json
}.

(** [str(v)] for a value a response holds, [None] for an absent key. *)
Definition str (env : Env) (v : option json) : string :=
  match v with
  | None => "None"
  | Some JNull => "None"
  | Some (JBool true) => "True"
  | Some (JBool false) => "False"
  | Some (JInt z) => str_int z
  | Some (JStr s) => s
  | Some other => repr env other
  end.

(** [get_credentials], the same function in both scripts but for the
    scopes and file names it reads from its module. *)
Section GetCredentials.
Variable env : Env.
Variables (SCOPES : list string) (CREDENTIALS_FILE TOKEN_FILE : string).

Definition run_flow : M World Credentials :=
  call (run_local_server env CREDENTIALS_FILE SCOPES).

Definition write_token (creds : Credentials) : M World unit :=
  call (open_write env TOKEN_FILE) ;;;
  w <- get_world ;;
  set_world (mk_world (Some (to_json creds)) (sent w) (inserted w)).

Definition get_credentials : M World Credentials :=
  w <- get_world ;;
  creds <- match token_file w with
           | Some text =>
               c <- call (from_authorized_user_file env TOKEN_FILE text SCOPES) ;;
               ret (Some c)
           | None => ret None
           end ;;
  match creds with
  | Some c =>
      if valid c then ret c
      else
        fresh <- (if expired c && truthy_opt_str (refresh_token c)
                  then call (refresh env c)
                  else run_flow) ;;
        write_token fresh ;;;
        ret fresh
  | None =>
      fresh <- run_flow ;;
      write_token fresh ;;;
      ret fresh
  end.

End GetCredentials.

End Google.

(* ===================================================================== *)
(** * [src/email_candidate.py]                                            *)
(* ===================================================================== *)

Module EmailCandidate.
Import Google.

Definition SCOPES : list string := ["https://www.googleapis.com/auth/gmail.send"].
Definition CREDENTIALS_FILE : string := "credentials.json".
Definition TOKEN_FILE : string := "token.json".

Definition get_credentials (env : Env) : M World Credentials :=
  Google.get_credentials env SCOPES CREDENTIALS_FILE TOKEN_FILE.

(** [send_email]: the function has no [return] statement, so the value
    the caller gets is Python's [None] whenever the call returns. *)
Definition send_email (env : Env) (recipient sender subject body : string)
  : M World (option string) :=
  try_except
    (creds <- get_credentials env ;;
     service <- call (build env "gmail" "v1" creds) ;;
     let message :=
       mk_message body [("To", recipient); ("From", sender); ("Subject", subject)] in
     encoded_message <- call (encode_message env message) ;;
     w <- get_world ;;
     set_world (mk_world (token_file w) (sent w ++ [("me", encoded_message)])%list
                         (inserted w)) ;;;
     send_message <- call (messages_send env service "me" encoded_message) ;;
     id <- call (dict_getitem send_message "id") ;;
     print ("✅ Email sent successfully! Message ID: " ++ str env (Some id)) ;;;
     ret None)
    [ (is_HttpError,
       fun error => print ("❌ An error occurred: " ++ exn_msg error) ;;; ret None);
      (is_Exception,
       fun e => print ("An unexpected error occurred: " ++ exn_msg e) ;;; ret None) ].

End EmailCandidate.

(* ===================================================================== *)
(** * [src/meeting_scheduler.py]                                          *)
(* ===================================================================== *)

Module Scheduler.
Import Google.

Definition SCOPES : list string := ["https://www.googleapis.com/auth/calendar"].
Definition TIMEZONE : string := "Asia/Kolkata".
Definition CREDENTIALS_FILE : string := "credentials.json".
Definition TOKEN_FILE : string := "token.json".

Definition get_credentials (env : Env) : M World Credentials :=
  Google.get_credentials env SCOPES CREDENTIALS_FILE TOKEN_FILE.

(** [datetime.datetime]; [utcoffset] in minutes, [None] for a naive one. *)
Record datetime : Type := mk_datetime {
  year : nat; month : nat; day : nat;
  hour : nat; minute : nat; second : nat; microsecond : nat;
  utcoffset : option Z
}.

(** [str(n).zfill(width)] *)
Definition zfill (width n : nat) : string :=
  let digits := str_nat n in
  String.concat "" (repeat "0" (width - String.length digits)) ++ digits.

(** [datetime.isoformat()] *)
Definition isoformat (d : datetime) : string :=
  zfill 4 (year d) ++ "-" ++ zfill 2 (month d) ++ "-" ++ zfill 2 (day d)
  ++ "T" ++ zfill 2 (hour d) ++ ":" ++ zfill 2 (minute d) ++ ":" ++ zfill 2 (second d)
  ++ (if (microsecond d =? 0)%nat then "" else "." ++ zfill 6 (microsecond d))
  ++ match utcoffset d with
     | None => ""
     | Some off =>
         let m := Z.to_nat (Z.abs off) in
         (if (off <? 0)%Z then "-" else "+")
         ++ zfill 2 (m / 60) ++ ":" ++ zfill 2 (m mod 60)
     end.

Record MeetingScheduler : Type := mk_scheduler {
  summary : string;
  description : string;
  start_time : datetime;
  end_time : datetime;
  attendees : list string;
  creds : Credentials;
  service : Service
}.

Section WithEnv.
Variable env : Env.

Definition __init__ (summary description : string)
           (start_time end_time : datetime) (attendees : list string)
  : M World MeetingScheduler :=
  creds <- get_credentials env ;;
  service <- call (build env "calendar" "v3" creds) ;;
  ret (mk_scheduler summary description start_time end_time attendees
                    creds service).

Definition _build_event_body (self : MeetingScheduler) : M World json :=
  w <- get_world ;;
  let attendee_list := map (fun email => JDict [("email", JStr email)]) (attendees self) in
  ret (JDict
    [ ("summary", JStr (summary self));
      ("description", JStr (description self));
      ("start", JDict [ ("dateTime", JStr (isoformat (start_time self)));
                        ("timeZone", JStr TIMEZONE) ]);
      ("end", JDict [ ("dateTime", JStr (isoformat (end_time self)));
                      ("timeZone", JStr TIMEZONE) ]);
      ("attendees", JList attendee_list);
      ("conferenceData", JDict
         [ ("createRequest", JDict
              [ ("requestId", JStr (timestamp_now env (List.length (inserted w))));
                ("conferenceSolutionKey", JDict [("type", JStr "hangoutsMeet")]) ]) ]);
      ("reminders", JDict
         [ ("useDefault", JBool false);
           ("overrides", JList
              [ JDict [("method", JStr "email"); ("minutes", JInt (24 * 60))];
                JDict [("method", JStr "popup"); ("minutes", JInt 15)] ]) ]) ]).

(** [schedule]: the method reads the fields of [self] and assigns none;
    the scheduler is returned next to the result so that this can be
    stated. *)
Definition schedule (self : MeetingScheduler)
  : M World (MeetingScheduler * option dict) :=
  event_body <- _build_event_body self ;;
  try_except
    (w <- get_world ;;
     set_world (mk_world (token_file w) (sent w) (inserted w ++ [event_body])%list) ;;;
     created_event <- call (events_insert env (service self) "primary" event_body true 1) ;;
     print (LF ++ "✅ Success! Meeting scheduled.") ;;;
     print ("🔗 Google Meet Link: " ++ str env (dict_get created_event "hangoutLink")) ;;;
     print ("📅 View on Google Calendar: " ++ str env (dict_get created_event "htmlLink")) ;;;
     ret (self, Some created_event))
    [ (is_HttpError,
       fun error => print ("❌ An error occurred: " ++ exn_msg error) ;;;
                    ret (self, None)) ].

End WithEnv.

End Scheduler.

(* ===================================================================== *)
(** * Vocabulary of the statements about [extract_email_from_text]        *)
(* ===================================================================== *)

Module EmailSpec.
Import Re.

(** The pattern as the specification words it: a local part of letters,
    digits and [._%+-], an [@], domain labels, a dot, and a top-level
    label of 2 to 7 letters.  [spec_email_shaped w] tells whether the
    whole of [w] has that shape, with the [@] at [a] and the dot at [b]. *)
Definition spec_local_char (c : ascii) : bool :=
  is_letter c || is_digit c || one_of "._%+-" c.

Definition spec_domain_char (c : ascii) : bool :=
  is_letter c || is_digit c || one_of ".-" c.

Definition slice (w : list ascii) (from to : nat) : list ascii :=
  firstn (to - from) (skipn from w).

Definition spec_shape_at (w : list ascii) (a b : nat) : bool :=
  let n := List.length w in
  let tld := slice w (S b) n in
  (0 <? a)%nat && (S a <? b)%nat && (b <? n)%nat
  && match nth_error w a with Some c => Ascii.eqb c "@" | None => false end
  && match nth_error w b with Some c => Ascii.eqb c "." | None => false end
  && forallb spec_local_char (slice w 0 a)
  && forallb spec_domain_char (slice w (S a) b)
  && (2 <=? List.length tld)%nat && (List.length tld <=? 7)%nat
  && forallb is_letter tld.

Definition spec_email_shaped (w : list ascii) : bool :=
  let positions := seq 0 (List.length w) in
  existsb (fun a => existsb (fun b => spec_shape_at w a b) positions) positions.

(** Every contiguous piece [s[i:i+len]] of [s]. *)
Definition substrings (s : list ascii) : list (list ascii) :=
  flat_map (fun i => map (fun len => firstn len (skipn i s))
                         (seq 0 (S (List.length s - i))))
           (seq 0 (S (List.length s))).

End EmailSpec.

(* ===================================================================== *)
(** * Vocabulary of the statements about [RAG.py]                         *)
(* ===================================================================== *)

Module RAGSpec.
Import RAG.

(** The loader call the loop makes for a directory entry: [None] for an
    entry whose name ends in neither [.pdf] nor [.docx]. *)
Definition loader_for (env : Env) (folder filename : string)
  : option (result Loader) :=
  if endswith filename ".pdf"
  then Some (PyPDFLoader env (os_path_join folder filename))
  else if endswith filename ".docx"
  then Some (Docx2txtLoader env (os_path_join folder filename))
  else None.

Definition unsupported (filename : string) : Prop :=
  endswith filename ".pdf" = false /\ endswith filename ".docx" = false.

(** The entry gives no document: it is unsupported, or its loader is
    constructed and [load()] fails or returns an empty list.  (A failure is
    an exception that derives from [Exception].) *)
Definition yields_nothing (env : Env) (folder filename : string) : Prop :=
  match loader_for env folder filename with
  | None => True
  | Some (Return loader) =>
      match load loader with
      | Return docs => docs = []
      | Raise e => is_Exception e = true
      end
  | Some (Raise _) => False
  end.

(** The loader of a supported entry can be constructed, and its [load()]
    returns or fails with an [Exception]. *)
Definition loads_or_fails (env : Env) (folder filename : string) : Prop :=
  match loader_for env folder filename with
  | None => True
  | Some (Return loader) =>
      match load loader with
      | Return _ => True
      | Raise e => is_Exception e = true
      end
  | Some (Raise _) => False
  end.

(** Documents of an entry that loads; none for the others. *)
Definition loaded_from (env : Env) (folder filename : string) : list Document :=
  match loader_for env folder filename with
  | Some (Return loader) =>
      match load loader with
      | Return docs => docs
      | Raise _ => []
      end
  | _ => []
  end.

(** The line printed for an entry: a notice for an unsupported one, the
    error for one whose [load()] fails, nothing for one that loads. *)
Definition notice (env : Env) (folder filename : string) : list string :=
  match loader_for env folder filename with
  | None => ["Unsupported file type skipped: " ++ filename]
  | Some (Return loader) =>
      match load loader with
      | Return _ => []
      | Raise e => ["Error loading file " ++ filename ++ ": " ++ exn_msg e]
      end
  | Some (Raise _) => []
  end.

End RAGSpec.

(* ===================================================================== *)
(** * Test doubles for the libraries, used by the concrete runs           *)
(* ===================================================================== *)

Module Doubles.
Import RAG.

(** The error the loaders of [langchain_community] raise from their
    constructor when the path is not a regular file. *)
Definition not_a_file (path : string) : exn :=
  mk_exn ValueError ("File path " ++ path ++ " is not a valid file or url").

Definition cv_document : Document :=
  mk_document "5 years as a Backend Engineer using Python and Go"
              [("source", "resumes/cv.pdf")].

(** Libraries that behave: the splitter keeps documents whole, the store
    indexes what it is given, retrieval returns the first [k] chunks.  The
    directory listing, the PDF loader, the JSON parser and PyMuPDF are
    given by the scenario. *)
Definition libraries (names : list string) (pdf : string -> result Loader)
           (parser : string -> result json)
           (pymupdf : string -> result PdfDoc) : Env :=
  mk_env (fun _ => Return names)
         pdf
         (fun path => Raise (not_a_file path))
         (fun _ _ docs => Return docs)
         (fun model => Return model)
         (fun splits model directory => Return (mk_chroma splits model directory))
         (fun r _ => Return (firstn (k r) (indexed (store r))))
         parser
         pymupdf.

Definition no_parser (message : string) : result json :=
  Raise (mk_exn OutputParserException ("Invalid json output: " ++ message)).

Definition no_pdf (path : string) : result PdfDoc :=
  Raise (mk_exn OSError ("no such file: '" ++ path ++ "'")).

(** A folder with notes and pictures only. *)
Definition folder_without_resumes : Env :=
  libraries ["notes.txt"; "photo.png"; "cv.PDF"]
            (fun path => Raise (not_a_file path)) no_parser no_pdf.

(** A folder holding a resume [cv.pdf] next to a sub-directory that is
    named [scans.pdf]. *)
Definition folder_with_directory_entry : Env :=
  libraries ["scans.pdf"; "cv.pdf"]
            (fun path => if String.eqb path "resumes/scans.pdf"
                         then Raise (not_a_file path)
                         else Return (mk_loader (Return [cv_document])))
            no_parser no_pdf.

Definition start : State World := mk_state [] world0.

End Doubles.

(* ===================================================================== *)
(** * Vocabulary of the statements about [get_text_from_pdf]              *)
(* ===================================================================== *)

Module PdfSpec.
Import RAG.

(** The first page whose extraction raises, if any. *)
Fixpoint page_failure (pages : list (result string)) : option exn :=
  match pages with
  | [] => None
  | Return _ :: rest => page_failure rest
  | Raise e :: _ => Some e
  end.

(** The exception that leaves the [with] statement: that of [fitz.open],
    else that of closing the document, else that of the first page that
    fails; [None] when opening, every page and closing succeed. *)
Definition pdf_failure (env : Env) (pdf_path : string) : option exn :=
  match fitz_open env pdf_path with
  | Raise e => Some e
  | Return doc =>
      match close doc with
      | Raise e => Some e
      | Return _ => page_failure (pages doc)
      end
  end.

(** The text of each page, in page order. *)
Definition page_texts (env : Env) (pdf_path : string) : list string :=
  match fitz_open env pdf_path with
  | Return doc =>
      map (fun page => match page with Return text => text | Raise _ => "" end)
          (pages doc)
  | Raise _ => []
  end.

(** A two page PDF, and a PDF whose second page cannot be read. *)
Definition two_pages : PdfDoc :=
  mk_pdf [Return "Jane Doe"; Return " jane@example.com"] (Return tt).

Definition damaged : PdfDoc :=
  mk_pdf [Return "Jane Doe"; Raise (mk_exn OtherException "bad xref"); Return "x"]
         (Return tt).

Definition pdf_files : Env :=
  Doubles.libraries [] (fun path => Raise (Doubles.not_a_file path)) Doubles.no_parser
    (fun path => if String.eqb path "cv.pdf" then Return two_pages
                 else if String.eqb path "damaged.pdf" then Return damaged
                 else Doubles.no_pdf path).

End PdfSpec.

(* ===================================================================== *)
(** * Vocabulary of the statements about [rate_candidate]                 *)
(* ===================================================================== *)

Module RatingSpec.
Import RAG.

(** Chunk texts in the order given, a blank line between two of them;
    nothing is removed. *)
Fixpoint blank_line_separated (chunks : list string) : string :=
  match chunks with
  | [] => ""
  | chunk :: rest =>
      match rest with
      | [] => chunk
      | _ :: _ => chunk ++ LF ++ LF ++ blank_line_separated rest
      end
  end.

(** The inputs [rate_candidate] hands to the chain. *)
Definition chain_input (context : string) (years : Z) (skills : list string)
  : list (string * string) :=
  [ ("context", context);
    ("required_experience", str_int years);
    ("required_skills", join ", " skills) ].

(** A number in the inclusive range 0 to 10. *)
Definition in_range (v : json) : Prop :=
  match v with
  | JInt z => (0 <= z <= 10)%Z
  | JFloat q => (0 <= q /\ q <= 10)%Q
  | _ => False
  end.

(** A Rating Result: an object with both ratings, each in range. *)
Definition rating_result (v : json) : Prop :=
  match v with
  | JDict fields =>
      match dict_get fields "work_ex_rating", dict_get fields "skills_rating" with
      | Some work, Some skills => in_range work /\ in_range skills
      | _, _ => False
      end
  | _ => False
  end.

(** An object that lacks one of the two ratings. *)
Definition missing_rating (v : json) : Prop :=
  match v with
  | JDict fields =>
      dict_get fields "work_ex_rating" = None
      \/ dict_get fields "skills_rating" = None
  | _ => False
  end.

(** A model that answers with one rating only, a parser that reads that
    answer, and a pipeline over one indexed chunk. *)
Definition partial_answer : string :=
  "{" ++ DQ ++ "work_ex_rating" ++ DQ ++ ": 7}".

Definition full_answer : string :=
  "{" ++ DQ ++ "work_ex_rating" ++ DQ ++ ": 9, "
      ++ DQ ++ "skills_rating" ++ DQ ++ ": 8}".

Definition json_parser (message : string) : result json :=
  if String.eqb message partial_answer
  then Return (JDict [("work_ex_rating", JInt 7)])
  else if String.eqb message full_answer
  then Return (JDict [("work_ex_rating", JInt 9); ("skills_rating", JInt 8)])
  else Doubles.no_parser message.

Definition parsing : Env :=
  Doubles.libraries [] (fun path => Raise (Doubles.not_a_file path))
                    json_parser Doubles.no_pdf.

Definition index : Chroma :=
  mk_chroma [Doubles.cv_document] "sentence-transformers/all-MiniLM-L6-v2"
            "./chroma_db".

Definition pipeline (answer : string) : ResumeRAG :=
  mk_rag "resumes" (fun _ _ => Return answer) index _get_prompt_template.

End RatingSpec.

(* ===================================================================== *)
(** * Test doubles for the Google APIs                                    *)
(* ===================================================================== *)

Module GoogleDoubles.
Import Google.

Definition token : Credentials :=
  mk_creds true false (Some "1//refresh") "{token}".

Definition unavailable : exn := mk_exn HttpError "<HttpError 503 Service Unavailable>".

(** Authentication works and the token is valid; the outcome of sending a
    message and of inserting an event is given by the scenario. *)
Definition apis (send insert : result dict) : Env :=
  mk_env (fun _ _ _ => Return token)
         (fun creds => Return creds)
         (fun _ _ => Return token)
         (fun _ => Return tt)
         (fun api version creds => Return (mk_service api version creds))
         (fun message => Return "UmF3IG1lc3NhZ2U=")
         (fun _ _ _ => send)
         (fun _ _ _ _ _ => insert)
         (fun n => "1754383500.25")
         (fun _ => "<object>").

Definition sent_response : dict :=
  [("id", JStr "198a7c3e5f"); ("threadId", JStr "198a7c3e5f")].

Definition created_event : dict :=
  [ ("id", JStr "ev1");
    ("htmlLink", JStr "https://www.google.com/calendar/event?eid=ev1");
    ("hangoutLink", JStr "https://meet.google.com/abc-defg-hij") ].

Definition signed_in : State World := mk_state [] (mk_world (Some "{token}") [] []).

End GoogleDoubles.

(* ===================================================================== *)
(** * [test.py]                                                           *)
(* ===================================================================== *)

Module TestScript.
Import Google Scheduler.

(** [main]; [localize tz d] stands for [pytz.timezone(tz).localize(d)]. *)
Definition main (env : Env) (localize : string -> datetime -> datetime)
  : M World unit :=
  let summary := "Quarterly Business Review" in
  let description := "Review of Q3 performance and planning for Q4." in
  let attendees := ["b418024@iiit-bh.ac.in"; "sunitamohanty.120@gmail.com"] in
  let start_time := localize TIMEZONE (mk_datetime 2025 8 5 14 0 0 0 None) in
  let end_time := localize TIMEZONE (mk_datetime 2025 8 5 15 30 0 0 None) in
  scheduler <- __init__ env summary description start_time end_time attendees ;;
  _ <- schedule env scheduler ;;
  ret tt.

End TestScript.

(* ===================================================================== *)
(** * More test doubles for the Google APIs                               *)
(* ===================================================================== *)

Module AuthDoubles.
Import Google.

Definition stale : Credentials :=
  mk_creds false true (Some "1//refresh") "{stale}".

Definition renewed : Credentials :=
  mk_creds true false (Some "1//refresh") "{renewed}".

Definition consented : Credentials :=
  mk_creds true false (Some "1//new") "{consented}".

Definition revoked : exn := mk_exn OtherException "invalid_grant: Token has been expired or revoked.".

Definition corrupt : exn := mk_exn ValueError "Expecting value: line 1 column 1 (char 0)".

(** Authentication as given by the scenario: what reading the token file
    gives, what refreshing gives, what the consent flow gives.  The Gmail
    API answers with [answer]. *)
Definition auth (read : result Credentials) (refreshed consent : result Credentials)
           (answer : result dict) : Env :=
  mk_env (fun _ _ _ => read)
         (fun _ => refreshed)
         (fun _ _ => consent)
         (fun _ => Return tt)
         (fun api version creds => Return (mk_service api version creds))
         (fun message => Return "UmF3IG1lc3NhZ2U=")
         (fun _ _ _ => answer)
         (fun _ _ _ _ _ => answer)
         (fun n => "1754383500.25")
         (fun _ => "<object>").

Definition first_run : State World := mk_state [] (mk_world None [] []).

Definition with_token : State World := mk_state [] (mk_world (Some "{stale}") [] []).

End AuthDoubles.

(* ===================================================================== *)
(** * A folder without any loadable document                              *)
(* ===================================================================== *)

Module EmptyFolderDoubles.
Import RAG Doubles.

(** A folder whose only entry is a sub-directory named [scans.pdf]: the
    loader cannot be constructed for it. *)
Definition folder_with_only_a_directory : Env :=
  libraries ["scans.pdf"] (fun path => Raise (not_a_file path)) no_parser no_pdf.

End EmptyFolderDoubles.

(* ===================================================================== *)
(** * Facts about the runtime                                             *)
(* ===================================================================== *)

Module PyFacts.

Lemma for_each_cons {W A X} (x : X) (xs : list X) (acc : A)
      (body : A -> X -> M W A) (s : State W) :
  for_each (x :: xs) acc body s
  = match body acc x s with
    | (Return acc', s') => for_each xs acc' body s'
    | (Raise e, s') => (Raise e, s')
    end.
Proof. reflexivity. Qed.

Lemma append_assoc (a b c : string) : (a ++ b) ++ c = a ++ (b ++ c).
Proof. induction a as [|ch a IH]; simpl; [reflexivity | now rewrite IH]. Qed.

Lemma append_nil_r (a : string) : a ++ "" = a.
Proof. induction a as [|ch a IH]; simpl; [reflexivity | now rewrite IH]. Qed.

Lemma concat_empty_sep (x : string) (xs : list string) :
  String.concat "" (x :: xs) = x ++ String.concat "" xs.
Proof. destruct xs; simpl; [now rewrite append_nil_r | reflexivity]. Qed.

End PyFacts.

(* ===================================================================== *)
(** * Properties of the [re] fragment and of [extract_email_from_text]    *)
(* ===================================================================== *)

Module ReFacts.
Import Re.

Lemma try_down_none (f : nat -> option nat) (lo extra : nat) :
  (forall n, f n = None) -> try_down f lo extra = None.
Proof.
  intros Hf. induction extra as [|extra IH]; simpl; rewrite Hf; auto.
Qed.

(** A successful search starts at the leftmost position that matches. *)
Lemma search_from_some (p : list item) (s : list ascii) :
  forall fuel i a b,
    search_from p s i fuel = Some (a, b) ->
    match_here p s a = Some b
    /\ (i <= a <= i + fuel)%nat
    /\ (forall a', (i <= a' < a)%nat -> match_here p s a' = None).
Proof.
  induction fuel as [|fuel IH]; intros i a b; simpl;
    destruct (match_here p s i) as [j|] eqn:Hi.
  - intros [= <- <-]. repeat split; auto; try lia; intros; lia.
  - discriminate.
  - intros [= <- <-]. repeat split; auto; try lia; intros; lia.
  - intros H. destruct (IH _ _ _ H) as (Hm & Hr & Hl).
    repeat split; try lia; auto.
    intros a' Ha'. destruct (Nat.eq_dec a' i) as [->|Hne]; auto.
    apply Hl. lia.
Qed.

(** A failed search found no match at any start position it scanned. *)
Lemma search_from_none (p : list item) (s : list ascii) :
  forall fuel i,
    search_from p s i fuel = None ->
    forall a, (i <= a <= i + fuel)%nat -> match_here p s a = None.
Proof.
  induction fuel as [|fuel IH]; intros i; simpl;
    destruct (match_here p s i) as [j|] eqn:Hi; try discriminate.
  - intros _ a Ha. replace a with i by lia. exact Hi.
  - intros H a Ha. destruct (Nat.eq_dec a i) as [->|Hne]; auto.
    apply (IH _ H). lia.
Qed.

Lemma search_none_everywhere (p : list item) (s : list ascii) :
  (forall i, match_here p s i = None) -> search p s = None.
Proof.
  intros H. unfold search. generalize 0%nat.
  induction (List.length s) as [|fuel IH]; intros i; simpl; rewrite H; auto.
Qed.

Lemma try_down_some (f : nat -> option nat) (lo extra j : nat) :
  try_down f lo extra = Some j ->
  exists n, (lo <= n <= lo + extra)%nat /\ f n = Some j.
Proof.
  induction extra as [|extra IH]; simpl.
  - destruct (f (lo + 0)%nat) eqn:Hf; [|discriminate].
    intros [= <-]. exists (lo + 0)%nat. split; [lia | assumption].
  - destruct (f (lo + S extra)%nat) eqn:Hf.
    + intros [= <-]. exists (lo + S extra)%nat. split; [lia | assumption].
    + intros H. destruct (IH H) as (n & Hn & Hfn). exists n. split; [lia | assumption].
Qed.

Lemma run_length_le (set : ascii -> bool) :
  forall limit rest, (run_length set rest limit <= limit)%nat.
Proof.
  induction limit as [|limit IH]; intros [|c rest]; simpl; try lia.
  destruct (set c); [|lia]. specialize (IH rest). lia.
Qed.

Lemma run_length_chars (set : ascii -> bool) :
  forall limit rest t,
    (t < run_length set rest limit)%nat ->
    exists c, nth_error rest t = Some c /\ set c = true.
Proof.
  induction limit as [|limit IH]; intros [|c rest] t; simpl; try lia.
  destruct (set c) eqn:Hc; [|lia].
  destruct t as [|t]; simpl.
  - intros _. exists c. auto.
  - intros Ht. apply IH. lia.
Qed.

(** What a match of each kind of item says about the text. *)
Lemma match_boundary_inv (p : list item) (s : list ascii) (i j : nat) :
  match_here (WordBoundary :: p) s i = Some j ->
  at_boundary s i = true /\ match_here p s i = Some j.
Proof. simpl. destruct (at_boundary s i); [auto | discriminate]. Qed.

Lemma match_literal_inv (c : ascii) (p : list item) (s : list ascii) (i j : nat) :
  match_here (Literal c :: p) s i = Some j ->
  nth_error s i = Some c /\ match_here p s (S i) = Some j.
Proof.
  simpl. destruct (nth_error s i) as [d|]; [|discriminate].
  destruct (Ascii.eqb_spec c d) as [->|]; [auto | discriminate].
Qed.

Lemma match_repeat_inv (lo : nat) (hi : option nat) (set : ascii -> bool)
      (p : list item) (s : list ascii) (i j : nat) :
  match_here (MaxRepeat lo hi set :: p) s i = Some j ->
  exists n,
    (lo <= n)%nat
    /\ (forall h, hi = Some h -> (n <= h)%nat)
    /\ (forall t, (t < n)%nat ->
                  exists c, nth_error s (i + t) = Some c /\ set c = true)
    /\ match_here p s (i + n) = Some j.
Proof.
  cbn [match_here].
  set (limit := match hi with Some h => h | None => List.length s end).
  destruct (lo <=? run_length set (skipn i s) limit)%nat eqn:Hlo; [|discriminate].
  apply Nat.leb_le in Hlo. intros H.
  apply try_down_some in H. destruct H as (n & Hn & Hmatch).
  exists n. repeat split; try lia; auto.
  - intros h ->. pose proof (run_length_le set limit (skipn i s)).
    subst limit. lia.
  - intros t Ht.
    destruct (@run_length_chars set limit (skipn i s) t) as (c & Hc & Hset); [lia|].
    rewrite nth_error_skipn in Hc. eauto.
Qed.

End ReFacts.

Module EmailFacts.
Import Re ReFacts RAG EmailSpec.

(** The example of the specification. *)
Lemma extract_email_example :
  extract_email_from_text "Contact: jane.doe+hr@example.co.uk for info"
  = Some "jane.doe+hr@example.co.uk".
Proof. vm_compute. reflexivity. Qed.

(** First match wins: the result is the text between the leftmost start
    position from which the pattern matches and the end the engine finds
    there. *)
Lemma extract_email_leftmost (text m : string) :
  extract_email_from_text text = Some m ->
  exists a b,
    m = substring a (b - a) text
    /\ match_here email_pattern (list_ascii_of_string text) a = Some b
    /\ (forall a', (a' < a)%nat ->
          match_here email_pattern (list_ascii_of_string text) a' = None).
Proof.
  unfold extract_email_from_text, search.
  destruct (search_from _ _ _ _) as [[a b]|] eqn:Hs; [|discriminate].
  intros [= <-]. apply search_from_some in Hs. destruct Hs as (Hm & _ & Hl).
  exists a, b. repeat split; auto. intros a' Ha'. apply Hl. lia.
Qed.

(** No match without an [@] in the text. *)
Lemma extract_email_needs_at (text : string) :
  ~ In "@"%char (list_ascii_of_string text) ->
  extract_email_from_text text = None.
Proof.
  intros Hat. unfold extract_email_from_text.
  rewrite search_none_everywhere; auto.
  intros i. unfold email_pattern. cbn [match_here].
  destruct (at_boundary _ i); auto.
  destruct (_ <=? _)%nat; auto.
  apply try_down_none. intros n.
  destruct (nth_error _ (i + n)) as [d|] eqn:Hn; auto.
  destruct (Ascii.eqb_spec "@" d) as [<-|]; auto.
  exfalso. apply Hat. eapply nth_error_In; eauto.
Qed.

(** [substrings] lists every contiguous piece. *)
Lemma substrings_complete (s pre w post : list ascii) :
  s = (pre ++ w ++ post)%list -> In w (substrings s).
Proof.
  intros ->. unfold substrings. apply in_flat_map.
  exists (List.length pre). split.
  - apply in_seq. rewrite !length_app. lia.
  - apply in_map_iff. exists (List.length w). split.
    + rewrite skipn_app, skipn_all, Nat.sub_diag. simpl.
      rewrite firstn_app, firstn_all, Nat.sub_diag. simpl.
      apply app_nil_r.
    + apply in_seq. rewrite !length_app. lia.
Qed.

(** [substring] on the list of characters. *)
Lemma list_ascii_of_substring (text : string) :
  forall n m,
    list_ascii_of_string (substring n m text)
    = firstn m (skipn n (list_ascii_of_string text)).
Proof.
  induction text as [|c text IH]; intros [|n] [|m]; simpl; auto.
  now rewrite (IH 0%nat m), skipn_O.
Qed.

(** A match of the pattern from [a] to [b]: [k1] local characters, the
    [@], [k2] domain characters, the dot, and [k3] characters of the last
    bracket expression, between two word boundaries. *)
Lemma email_match_inv (s : list ascii) (a b : nat) :
  match_here email_pattern s a = Some b ->
  exists k1 k2 k3,
    (1 <= k1 /\ 1 <= k2 /\ 2 <= k3 <= 7)%nat
    /\ b = (a + k1 + 1 + k2 + 1 + k3)%nat
    /\ (forall t, (t < k1)%nat ->
          exists c, nth_error s (a + t) = Some c
                    /\ (is_upper c || is_lower c || is_digit c || one_of "._%+-" c) = true)
    /\ nth_error s (a + k1) = Some "@"%char
    /\ (forall t, (t < k2)%nat ->
          exists c, nth_error s (a + k1 + 1 + t) = Some c
                    /\ (is_upper c || is_lower c || is_digit c || one_of ".-" c) = true)
    /\ nth_error s (a + k1 + 1 + k2) = Some "."%char
    /\ (forall t, (t < k3)%nat ->
          exists c, nth_error s (a + k1 + 1 + k2 + 1 + t) = Some c
                    /\ (is_upper c || one_of "|" c || is_lower c) = true)
    /\ at_boundary s a = true
    /\ at_boundary s b = true.
Proof.
  unfold email_pattern. intros H.
  apply match_boundary_inv in H. destruct H as [Hstart H].
  apply match_repeat_inv in H. destruct H as (k1 & Hk1 & _ & Hlocal & H).
  apply match_literal_inv in H. destruct H as [Hat H].
  apply match_repeat_inv in H. destruct H as (k2 & Hk2 & _ & Hdomain & H).
  apply match_literal_inv in H. destruct H as [Hdot H].
  apply match_repeat_inv in H. destruct H as (k3 & Hk3 & Hmax & Htld & H).
  apply match_boundary_inv in H. destruct H as [Hend H].
  simpl in H. injection H as Hb.
  specialize (Hmax 7%nat eq_refl).
  replace (S (a + k1)) with (a + k1 + 1)%nat in * by lia.
  replace (S (a + k1 + 1 + k2)) with (a + k1 + 1 + k2 + 1)%nat in * by lia.
  subst b. exists k1, k2, k3.
  repeat split; auto; try lia.
  match goal with
  | |- at_boundary s ?j = true =>
      replace j with (a + k1 + 1 + k2 + 1 + k3)%nat by lia
  end.
  exact Hend.
Qed.

Lemma forallb_nth_error {A} (P : A -> bool) (l : list A) :
  (forall i c, nth_error l i = Some c -> P c = true) -> forallb P l = true.
Proof.
  intros H. apply forallb_forall. intros x Hx.
  destruct (In_nth_error _ _ Hx) as [i Hi]. eauto.
Qed.

Lemma nth_error_slice (w : list ascii) (from to i : nat) :
  nth_error (slice w from to) i
  = if (i <? to - from)%nat then nth_error w (from + i) else None.
Proof. unfold slice. now rewrite nth_error_firstn, nth_error_skipn. Qed.

(** Apart from the bar, the pattern is the one the specification words:
    an address the function returns that holds no bar has the shape local
    part, [@], domain labels, dot, top-level label of 2 to 7 letters. *)
Lemma extract_email_shape_without_bar (text m : string) :
  extract_email_from_text text = Some m ->
  ~ In "|"%char (list_ascii_of_string m) ->
  spec_email_shaped (list_ascii_of_string m) = true.
Proof.
  intros Hm Hbar.
  destruct (extract_email_leftmost _ Hm) as (a & b & -> & Hmatch & _).
  set (s := list_ascii_of_string text) in *.
  rewrite list_ascii_of_substring in *. fold s in Hbar |- *.
  destruct (email_match_inv _ _ Hmatch)
    as (k1 & k2 & k3 & (Hk1 & Hk2 & Hk3) & Hb & Hlocal & Hat & Hdomain & Hdot & Htld & _).
  set (w := firstn (b - a) (skipn a s)) in *.
  assert (Hnth : forall i, (i < b - a)%nat -> nth_error w i = nth_error s (a + i)).
  { intros i Hi. unfold w. rewrite nth_error_firstn, nth_error_skipn.
    apply Nat.ltb_lt in Hi. now rewrite Hi. }
  assert (Hlen : List.length w = (b - a)%nat).
  { destruct (Htld (k3 - 1)%nat) as (c & Hc & _); [lia|].
    assert (a + k1 + 1 + k2 + 1 + (k3 - 1) < List.length s)%nat
      by (apply nth_error_Some; congruence).
    unfold w. rewrite length_firstn, length_skipn. lia. }
  unfold spec_email_shaped. apply existsb_exists.
  exists k1. split; [apply in_seq; lia|].
  apply existsb_exists. exists (k1 + 1 + k2)%nat. split; [apply in_seq; lia|].
  unfold spec_shape_at. rewrite Hlen.
  rewrite !Hnth by lia.
  replace (a + (k1 + 1 + k2))%nat with (a + k1 + 1 + k2)%nat by lia.
  rewrite Hat, Hdot. simpl Ascii.eqb.
  assert (Hlocal' : forallb spec_local_char (slice w 0 k1) = true).
  { apply forallb_nth_error. intros i c. rewrite nth_error_slice.
    destruct (i <? k1 - 0)%nat eqn:Hi; [|discriminate].
    apply Nat.ltb_lt in Hi. rewrite Hnth by lia. simpl. intros Hc.
    destruct (Hlocal i) as (c' & Hc' & Hset); [lia|].
    rewrite Hc in Hc'. injection Hc' as <-. exact Hset. }
  assert (Hdomain' : forallb spec_domain_char (slice w (S k1) (k1 + 1 + k2)) = true).
  { apply forallb_nth_error. intros i c. rewrite nth_error_slice.
    destruct (i <? k1 + 1 + k2 - S k1)%nat eqn:Hi; [|discriminate].
    apply Nat.ltb_lt in Hi. rewrite Hnth by lia. intros Hc.
    destruct (Hdomain i) as (c' & Hc' & Hset); [lia|].
    replace (a + (S k1 + i))%nat with (a + k1 + 1 + i)%nat in Hc by lia.
    rewrite Hc in Hc'. injection Hc' as <-. exact Hset. }
  assert (Hlabel : forall i c,
             nth_error (slice w (S (k1 + 1 + k2)) (b - a)) i = Some c ->
             is_letter c = true).
  { intros i c. rewrite nth_error_slice.
    destruct (i <? b - a - S (k1 + 1 + k2))%nat eqn:Hi; [|discriminate].
    apply Nat.ltb_lt in Hi. intros Hw.
    assert (Hin : In c w) by (eapply nth_error_In; exact Hw).
    rewrite Hnth in Hw by lia.
    destruct (Htld i) as (c' & Hc' & Hset); [lia|].
    replace (a + (S (k1 + 1 + k2) + i))%nat
      with (a + k1 + 1 + k2 + 1 + i)%nat in Hw by lia.
    rewrite Hw in Hc'. injection Hc' as <-.
    assert (Hnot : one_of "|" c = false).
    { unfold one_of. simpl. destruct (Ascii.eqb_spec c "|") as [->|]; [|reflexivity].
      contradiction. }
    unfold is_letter. rewrite Hnot in Hset.
    destruct (is_upper c); [reflexivity | exact Hset]. }
  assert (Hlabel_len : List.length (slice w (S (k1 + 1 + k2)) (b - a)) = k3).
  { unfold slice. rewrite length_firstn, length_skipn. lia. }
  rewrite Hlocal', Hdomain', Hlabel_len, (forallb_nth_error _ _ Hlabel).
  repeat (apply andb_true_intro; split); auto;
    try (apply Nat.ltb_lt; lia); apply Nat.leb_le; lia.
Qed.

(** C4: on the text [a@b.c|d] the function returns the whole text as an
    address although no piece of that text has the shape the specification
    gives (its only dot is followed by the single letter [c]): the bracket
    expression [[A-Z|a-z]] of the pattern admits the bar as a character of
    the top-level label. *)
Theorem extract_email_bar_in_top_level_label :
  extract_email_from_text "a@b.c|d" = Some "a@b.c|d"
  /\ forallb (fun w => negb (spec_email_shaped w))
             (substrings (list_ascii_of_string "a@b.c|d")) = true.
Proof. split; vm_compute; reflexivity. Qed.

End EmailFacts.

(* ===================================================================== *)
(** * Document loading and pipeline construction                          *)
(* ===================================================================== *)

Module LoadFacts.
Import RAG RAGSpec.

Lemma unsupported_yields_nothing (env : Env) (folder filename : string) :
  unsupported filename -> yields_nothing env folder filename.
Proof.
  intros [Hpdf Hdocx]. unfold yields_nothing, loader_for.
  rewrite Hpdf, Hdocx. exact I.
Qed.

Lemma yields_nothing_loads_or_fails (env : Env) (folder filename : string) :
  yields_nothing env folder filename ->
  loads_or_fails env folder filename /\ loaded_from env folder filename = [].
Proof.
  unfold yields_nothing, loads_or_fails, loaded_from.
  destruct (loader_for env folder filename) as [[loader|e]|]; auto.
  destruct (load loader) as [docs|e]; auto.
Qed.

(** One turn of the loop: the entry's documents are appended, its notice
    is printed, nothing else changes. *)
Lemma load_entry_step (env : Env) (folder filename : string)
      (documents : list Document) (s : State World) :
  loads_or_fails env folder filename ->
  load_entry env folder documents filename s
  = (Return (documents ++ loaded_from env folder filename)%list,
     mk_state (stdout s ++ notice env folder filename)%list (world s)).
Proof.
  unfold loads_or_fails, loaded_from, notice, loader_for, load_entry.
  destruct (endswith filename ".pdf"); [|destruct (endswith filename ".docx")].
  - destruct (PyPDFLoader env _) as [loader|e]; [|contradiction].
    unfold try_except. run.
    destruct (load loader) as [docs|e]; simpl.
    + intros _. rewrite app_nil_r. destruct s; reflexivity.
    + intros ->. rewrite app_nil_r. reflexivity.
  - destruct (Docx2txtLoader env _) as [loader|e]; [|contradiction].
    unfold try_except. run.
    destruct (load loader) as [docs|e]; simpl.
    + intros _. rewrite app_nil_r. destruct s; reflexivity.
    + intros ->. rewrite app_nil_r. reflexivity.
  - intros _. run. rewrite app_nil_r. reflexivity.
Qed.

Lemma load_loop (env : Env) (folder : string) (names : list string) :
  Forall (loads_or_fails env folder) names ->
  forall documents s,
    for_each names documents (load_entry env folder) s
    = (Return (documents ++ flat_map (loaded_from env folder) names)%list,
       mk_state (stdout s ++ flat_map (notice env folder) names)%list (world s)).
Proof.
  induction 1 as [|name names Hname _ IH]; intros documents s; simpl.
  - run. rewrite !app_nil_r. destruct s; reflexivity.
  - unfold bind. rewrite load_entry_step by assumption.
    rewrite IH. simpl. rewrite <- !app_assoc. reflexivity.
Qed.

(** When every loader can be constructed, the load returns the documents
    of every file that loads, in directory order, and prints one line for
    each entry it skips: unsupported entries and failed loads abort
    nothing. *)
Lemma load_documents_skips_bad_entries (env : Env) (folder : string)
      (names : list string) (s : State World) :
  listdir env folder = Return names ->
  Forall (loads_or_fails env folder) names ->
  _load_documents_from_folder env folder s
  = (Return (flat_map (loaded_from env folder) names),
     mk_state (stdout s ++ flat_map (notice env folder) names)%list (world s)).
Proof.
  intros Hdir Hnames. unfold _load_documents_from_folder. run.
  rewrite Hdir. apply (load_loop Hnames).
Qed.

End LoadFacts.

Module PipelineFacts.
Import RAG RAGSpec Doubles LoadFacts.

Lemma nothing_loaded (env : Env) (folder : string) (names : list string) :
  Forall (yields_nothing env folder) names ->
  Forall (loads_or_fails env folder) names
  /\ flat_map (loaded_from env folder) names = [].
Proof.
  induction 1 as [|name names Hname _ [IHa IHb]]; simpl; [auto|].
  destruct (yields_nothing_loads_or_fails _ _ _ Hname) as [Ha Hb].
  rewrite Hb, IHb. auto.
Qed.

Lemma init_on_empty_corpus (env : Env) (folder : string) (model : LLM)
      (names : list string) (s : State World) :
  listdir env folder = Return names ->
  Forall (yields_nothing env folder) names ->
  exists s',
    __init__ env folder model s = (Raise no_documents, s')
    /\ vector_dbs (world s') = vector_dbs (world s).
Proof.
  intros Hdir Hnames. destruct (nothing_loaded Hnames) as [Hok Hnil].
  unfold __init__, _load_and_process_documents. run.
  rewrite (load_documents_skips_bad_entries _ Hdir Hok), Hnil. simpl.
  eexists. split; reflexivity.
Qed.

(** Where the check for an empty document list is reached: when every
    entry is unsupported, or its loader is constructed and its load fails
    or returns nothing, and in particular when every entry has an
    unsupported extension, constructing the pipeline raises the
    [ValueError] "No documents found in the specified folder." and no
    vector store has been built. *)
Theorem init_fails_without_documents (env : Env) (folder : string)
        (model : LLM) (names : list string) (s : State World) :
  listdir env folder = Return names ->
  Forall (yields_nothing env folder) names \/ Forall unsupported names ->
  exists s',
    __init__ env folder model s = (Raise no_documents, s')
    /\ vector_dbs (world s') = vector_dbs (world s).
Proof.
  intros Hdir [Hnames|Hnames].
  - eapply init_on_empty_corpus; eauto.
  - eapply init_on_empty_corpus; eauto.
    eapply Forall_impl; [|exact Hnames].
    intros name. apply unsupported_yields_nothing.
Qed.

Lemma init_fails_without_documents_witness :
  listdir folder_without_resumes "resumes"
  = Return ["notes.txt"; "photo.png"; "cv.PDF"]
  /\ Forall unsupported ["notes.txt"; "photo.png"; "cv.PDF"]
  /\ exists s',
       __init__ folder_without_resumes "resumes" (fun _ _ => Return "") start
       = (Raise no_documents, s')
       /\ vector_dbs (world s') = vector_dbs (world start).
Proof.
  assert (Hdir : listdir folder_without_resumes "resumes"
                 = Return ["notes.txt"; "photo.png"; "cv.PDF"]) by reflexivity.
  assert (Hall : Forall unsupported ["notes.txt"; "photo.png"; "cv.PDF"])
    by (repeat constructor).
  split; [exact Hdir | split; [exact Hall|]].
  exact (@init_fails_without_documents folder_without_resumes "resumes"
           (fun _ _ => Return "") ["notes.txt"; "photo.png"; "cv.PDF"] start
           Hdir (or_intror Hall)).
Defined.

(** A folder with one resume and one text file: the pipeline is built,
    the text file is skipped with a notice. *)
Example init_on_a_resume :
  __init__ (libraries ["notes.txt"; "cv.pdf"]
                      (fun _ => Return (mk_loader (Return [cv_document])))
                      no_parser no_pdf)
           "resumes" (fun _ _ => Return "") start
  = (Return (mk_rag "resumes" (fun _ _ => Return "")
                    (mk_chroma [cv_document]
                               "sentence-transformers/all-MiniLM-L6-v2"
                               "./chroma_db")
                    _get_prompt_template),
     mk_state [ "Loading documents from: resumes";
                "Unsupported file type skipped: notes.txt";
                "Loaded 1 documents.";
                "Split documents into 1 chunks.";
                "Creating vector database...";
                "Vector database created successfully." ]
              (mk_world [mk_chroma [cv_document]
                                   "sentence-transformers/all-MiniLM-L6-v2"
                                   "./chroma_db"] [] [] [])).
Proof. reflexivity. Qed.

(** C5: a directory entry [scans.pdf] that is not a regular file makes
    the constructor of its loader raise; the constructor call is outside
    the [try], so the error leaves [_load_documents_from_folder] and the
    documents of the loadable [cv.pdf] are not returned. *)
Theorem load_documents_aborts_on_loader_constructor :
  _load_documents_from_folder folder_with_directory_entry "resumes" start
  = (Raise (not_a_file "resumes/scans.pdf"), start)
  /\ loaded_from folder_with_directory_entry "resumes" "cv.pdf" = [cv_document].
Proof. split; reflexivity. Qed.

End PipelineFacts.

(* ===================================================================== *)
(** * [get_text_from_pdf]                                                 *)
(* ===================================================================== *)

Module PdfFacts.
Import RAG PdfSpec Doubles PyFacts.

(** The page loop: the texts are appended in page order until a page
    fails. *)
Lemma page_loop (pages : list (result string)) :
  forall (acc : string) (s : State World),
    for_each pages acc
      (fun full_text page => text <- call page ;; ret (full_text ++ text)) s
    = match page_failure pages with
      | None =>
          (Return (acc ++ String.concat ""
                     (map (fun page => match page with
                                       | Return text => text
                                       | Raise _ => ""
                                       end) pages)), s)
      | Some e => (Raise e, s)
      end.
Proof.
  induction pages as [|[text|e] pages IH]; intros acc s.
  - simpl. run. now rewrite append_nil_r.
  - rewrite for_each_cons. cbv beta.
    change (for_each pages (acc ++ text)
              (fun full_text page => text0 <- call page ;; ret (full_text ++ text0)) s
            = match page_failure pages with
              | None =>
                  (Return (acc ++ String.concat ""
                             (text :: map (fun page => match page with
                                                       | Return t => t
                                                       | Raise _ => ""
                                                       end) pages)), s)
              | Some e => (Raise e, s)
              end).
    rewrite IH. destruct (page_failure pages); [reflexivity|].
    rewrite concat_empty_sep, append_assoc. reflexivity.
  - reflexivity.
Qed.

(** C7: [get_text_from_pdf] returns the texts of the pages joined in page
    order when opening, every page and closing succeed; when one of them
    fails (raises an exception that derives from [Exception]) it prints
    the error and returns the empty string.  Only an exception outside
    [Exception], which is no failure of the PDF library, is passed on. *)
Theorem get_text_from_pdf_outcome (env : Env) (pdf_path : string)
        (s : State World) :
  get_text_from_pdf env pdf_path s
  = match pdf_failure env pdf_path with
    | None => (Return (String.concat "" (page_texts env pdf_path)), s)
    | Some e =>
        if is_Exception e
        then (Return "",
              mk_state (stdout s ++ [("Error reading PDF " ++ pdf_path ++ ": " ++ exn_msg e)%string])%list
                       (world s))
        else (Raise e, s)
    end.
Proof.
  unfold get_text_from_pdf, pdf_failure, page_texts, try_except, with_exit.
  unfold bind at 1. unfold call at 1.
  destruct (fitz_open env pdf_path) as [doc|e]; simpl.
  - unfold bind at 1. rewrite page_loop. unfold call.
    destruct (close doc) as [u|e'].
    + destruct (page_failure (pages doc)) as [e|]; simpl; [|reflexivity].
      destruct (is_Exception e); reflexivity.
    + destruct (page_failure (pages doc)) as [e|]; simpl;
        destruct (is_Exception e'); reflexivity.
  - destruct (is_Exception e); reflexivity.
Qed.

Example get_text_two_pages :
  get_text_from_pdf pdf_files "cv.pdf" start
  = (Return "Jane Doe jane@example.com", start).
Proof. reflexivity. Qed.

Example get_text_damaged :
  get_text_from_pdf pdf_files "damaged.pdf" start
  = (Return "", mk_state ["Error reading PDF damaged.pdf: bad xref"] world0).
Proof. reflexivity. Qed.

Example get_text_missing :
  get_text_from_pdf pdf_files "nowhere.pdf" start
  = (Return "",
     mk_state ["Error reading PDF nowhere.pdf: no such file: 'nowhere.pdf'"] world0).
Proof. reflexivity. Qed.

End PdfFacts.

(* ===================================================================== *)
(** * [ResumeRAG.rate_candidate]                                          *)
(* ===================================================================== *)

Module RatingFacts.
Import RAG RatingSpec Doubles.

Lemma join_blank_lines (chunks : list string) :
  join (LF ++ LF) chunks = blank_line_separated chunks.
Proof.
  unfold join. induction chunks as [|chunk rest IH]; [reflexivity|].
  destruct rest as [|next rest]; [reflexivity|].
  change (chunk ++ (LF ++ LF) ++ String.concat (LF ++ LF) (next :: rest)
          = chunk ++ LF ++ LF ++ blank_line_separated (next :: rest)).
  rewrite IH. reflexivity.
Qed.

(** One call of [rate_candidate], step by step: the retrieval with
    [k = 5], the inputs of the chain, the prompt, the model's answer and
    the parser's outcome, which is the outcome of the call. *)
Lemma rate_candidate_run (env : Env) (self : ResumeRAG) (years : Z)
      (skills : list string) (s : State World) :
  rate_candidate env self years skills s
  = let query := retriever_query years (join ", " skills) in
    let outcome := retriever_invoke env (mk_retriever (vectorstore self) 5) query in
    let w := world s in
    let out1 :=
      (stdout s ++ [(LF ++ "Retrieving documents for query: '" ++ query ++ "'")%string])%list in
    let seen := (retrievals w ++ [(query, 5%nat, outcome)])%list in
    match outcome with
    | Raise e =>
        (Raise e, mk_state out1 (mk_world (vector_dbs w) seen (chain_inputs w) (prompts w)))
    | Return docs =>
        let inputs :=
          chain_input (join (LF ++ LF) (map page_content docs)) years skills in
        let out2 := (out1 ++ ["Invoking LLM to generate ratings..."])%list in
        let given := (chain_inputs w ++ [inputs])%list in
        match format (prompt_template self) inputs with
        | Raise e =>
            (Raise e, mk_state out2 (mk_world (vector_dbs w) seen given (prompts w)))
        | Return prompt =>
            let asked := (prompts w ++ [prompt])%list in
            (match llm self (List.length (prompts w)) prompt with
             | Raise e => Raise e
             | Return message => JsonOutputParser env message
             end,
             mk_state out2 (mk_world (vector_dbs w) seen given asked))
        end
    end.
Proof.
  unfold rate_candidate, invoke_retriever, chain_invoke, chain_input. run.
  destruct (retriever_invoke env _ _) as [docs|e]; simpl; [|reflexivity].
  destruct (format _ _) as [prompt|e]; simpl; [|reflexivity].
  destruct (llm self _ prompt) as [message|e]; simpl; [|reflexivity].
  destruct (JsonOutputParser env message); reflexivity.
Qed.

(** The prompt template has no field but the three the chain is given:
    rendering it cannot fail. *)
Lemma prompt_renders (context : string) (years : Z) (skills : list string) :
  exists prompt,
    format _get_prompt_template (chain_input context years skills) = Return prompt.
Proof. eexists. reflexivity. Qed.

(** Every call records exactly one retrieval: the query built from the
    criteria, [k = 5], and what the retriever gave for them. *)
Lemma context_retrieval_recorded (env : Env) (self : ResumeRAG)
      (years : Z) (skills : list string) (s : State World) :
  retrievals (world (snd (rate_candidate env self years skills s)))
  = (retrievals (world s)
     ++ [(retriever_query years (join ", " skills), 5%nat,
          retriever_invoke env (mk_retriever (vectorstore self) 5)
                           (retriever_query years (join ", " skills)))])%list.
Proof.
  rewrite rate_candidate_run. cbv zeta.
  destruct (retriever_invoke env _ _) as [docs|e]; [|reflexivity].
  destruct (format _ _) as [prompt|e]; reflexivity.
Qed.

(** C6: every rating request asks the retriever for [k = 5] chunks, and
    the context handed to the prompt is the text of the chunks retrieved,
    each of them, in the order the index returned them, with a blank line
    between two chunks. *)
Theorem context_is_retrieved_chunks_in_order (env : Env) (self : ResumeRAG)
        (years : Z) (skills : list string) (s : State World) :
  let query := retriever_query years (join ", " skills) in
  let outcome := retriever_invoke env (mk_retriever (vectorstore self) 5) query in
  let s' := snd (rate_candidate env self years skills s) in
  retrievals (world s') = (retrievals (world s) ++ [(query, 5%nat, outcome)])%list
  /\ match outcome with
     | Return docs =>
         chain_inputs (world s')
         = (chain_inputs (world s)
            ++ [chain_input (blank_line_separated (map page_content docs))
                            years skills])%list
     | Raise _ => chain_inputs (world s') = chain_inputs (world s)
     end.
Proof.
  cbv zeta. rewrite rate_candidate_run. cbv zeta.
  destruct (retriever_invoke env _ _) as [docs|e]; [|split; reflexivity].
  rewrite join_blank_lines.
  destruct (format _ _) as [prompt|e]; split; reflexivity.
Qed.

(** Chunks that repeat are kept: two equal chunks appear twice. *)
Example context_keeps_duplicates (chunk : string) :
  blank_line_separated [chunk; chunk] = chunk ++ LF ++ LF ++ chunk.
Proof. reflexivity. Qed.

(** The outcome of [rate_candidate] is the outcome of the JSON parser on
    the model's answer: nothing is checked, nothing is replaced. *)
Lemma rate_candidate_outcome (env : Env) (self : ResumeRAG) (years : Z)
      (skills : list string) (s : State World)
      (docs : list Document) (prompt message : string) :
  retriever_invoke env (mk_retriever (vectorstore self) 5)
                   (retriever_query years (join ", " skills)) = Return docs ->
  format (prompt_template self)
         (chain_input (join (LF ++ LF) (map page_content docs)) years skills)
  = Return prompt ->
  llm self (List.length (prompts (world s))) prompt = Return message ->
  fst (rate_candidate env self years skills s) = JsonOutputParser env message.
Proof.
  intros Hdocs Hprompt Hmessage. rewrite rate_candidate_run. cbv zeta.
  rewrite Hdocs, Hprompt. simpl. rewrite Hmessage. reflexivity.
Qed.

(** C1: the model answers with [work_ex_rating] only.  The call raises
    nothing and returns the object without [skills_rating], although the
    docstring of [rate_candidate] promises a dictionary with both
    ratings: the parser's value is handed back unchecked. *)
Theorem rate_candidate_returns_partial_scores :
  fst (rate_candidate parsing (pipeline partial_answer) 5 ["Python"; "Go"] start)
  = Return (JDict [("work_ex_rating", JInt 7)])
  /\ missing_rating (JDict [("work_ex_rating", JInt 7)]).
Proof. split; [vm_compute; reflexivity | right; reflexivity]. Qed.

End RatingFacts.

(* ===================================================================== *)
(** * [send_email]                                                        *)
(* ===================================================================== *)

Module EmailSendFacts.
Import Google EmailCandidate GoogleDoubles.

(** Whatever the libraries do, [send_email] returns [None] or passes on
    an exception that does not derive from [Exception]: it never returns
    a message id and never raises a failure. *)
Lemma send_email_never_reports (env : Env)
      (recipient sender subject body : string) (s : State World) :
  match fst (send_email env recipient sender subject body s) with
  | Return v => v = None
  | Raise e => is_Exception e = false
  end.
Proof.
  unfold send_email, try_except.
  match goal with |- context [match ?b s with _ => _ end] => destruct (b s) as [[v|e] s'] eqn:Hbody end.
  - simpl.
    revert Hbody. run.
    destruct (get_credentials env s) as [[creds|e0] s0]; [|discriminate].
    destruct (build env _ _ creds) as [service|e0]; [|discriminate].
    destruct (encode_message env _) as [raw|e0]; simpl; [|discriminate].
    destruct (messages_send env _ _ _) as [response|e0]; simpl; [|discriminate].
    destruct (dict_getitem response "id") as [id|e0]; simpl; [|discriminate].
    intros [= <- _]. reflexivity.
  - simpl. destruct (is_HttpError e) eqn:Hhttp; [reflexivity|].
    destruct (is_Exception e) eqn:Hexc; [reflexivity | exact Hexc].
Qed.

(** C9, as the code has it: once the credentials, the service and the
    encoded message are there, a successful send prints the provider's
    message id and returns [None]; a failed send prints the error and
    returns [None] as well: nothing is raised to the caller. *)
Theorem send_email_prints_and_returns_none (env : Env)
        (recipient sender subject body : string) (s s1 : State World)
        (creds : Credentials) (service : Service) (raw : string) :
  get_credentials env s = (Return creds, s1) ->
  build env "gmail" "v1" creds = Return service ->
  encode_message env
    (mk_message body [("To", recipient); ("From", sender); ("Subject", subject)])
  = Return raw ->
  let requested :=
    mk_world (token_file (world s1)) (sent (world s1) ++ [("me", raw)])%list
             (inserted (world s1)) in
  (forall response id,
      messages_send env service "me" raw = Return response ->
      dict_get response "id" = Some id ->
      send_email env recipient sender subject body s
      = (Return None,
         mk_state (stdout s1
                   ++ [("✅ Email sent successfully! Message ID: "
                        ++ str env (Some id))%string])%list
                  requested))
  /\ (forall e,
         messages_send env service "me" raw = Raise e ->
         is_Exception e = true ->
         send_email env recipient sender subject body s
         = (Return None,
            mk_state (stdout s1
                      ++ [if is_HttpError e
                          then ("❌ An error occurred: " ++ exn_msg e)%string
                          else ("An unexpected error occurred: " ++ exn_msg e)%string])%list
                     requested)).
Proof.
  intros Hcreds Hbuild Hraw requested. subst requested.
  split.
  - intros response id Hsend Hid.
    unfold send_email, try_except. run.
    rewrite Hcreds, Hbuild, Hraw. simpl. rewrite Hsend. simpl.
    unfold dict_getitem. rewrite Hid. reflexivity.
  - intros e Hsend Hexc.
    unfold send_email, try_except. run.
    rewrite Hcreds, Hbuild, Hraw. simpl. rewrite Hsend. simpl.
    destruct (is_HttpError e); [reflexivity|].
    rewrite Hexc. reflexivity.
Qed.

Lemma send_email_prints_and_returns_none_witness :
  send_email (apis (Return sent_response) (Raise unavailable))
             "jane.doe@example.com" "hr@example.com" "Interview" "Hello Jane"
             signed_in
  = (Return None,
     mk_state ["✅ Email sent successfully! Message ID: 198a7c3e5f"]
              (mk_world (Some "{token}") [("me", "UmF3IG1lc3NhZ2U=")] []))
  /\ send_email (apis (Raise unavailable) (Raise unavailable))
                "jane.doe@example.com" "hr@example.com" "Interview" "Hello Jane"
                signed_in
     = (Return None,
        mk_state ["❌ An error occurred: <HttpError 503 Service Unavailable>"]
                 (mk_world (Some "{token}") [("me", "UmF3IG1lc3NhZ2U=")] [])).
Proof.
  split.
  - refine (proj1 (@send_email_prints_and_returns_none
                     (apis (Return sent_response) (Raise unavailable))
                     "jane.doe@example.com" "hr@example.com" "Interview" "Hello Jane"
                     signed_in signed_in token (mk_service "gmail" "v1" token)
                     "UmF3IG1lc3NhZ2U=" _ _ _)
                  sent_response (JStr "198a7c3e5f") _ _); reflexivity.
  - refine (proj2 (@send_email_prints_and_returns_none
                     (apis (Raise unavailable) (Raise unavailable))
                     "jane.doe@example.com" "hr@example.com" "Interview" "Hello Jane"
                     signed_in signed_in token (mk_service "gmail" "v1" token)
                     "UmF3IG1lc3NhZ2U=" _ _ _)
                  unavailable _ _); reflexivity.
Defined.

(** C9, counterexample: the provider accepts the message and answers with
    the id [198a7c3e5f], yet the caller gets [None]; the provider answers
    with an [HttpError], yet the call returns normally. *)
Lemma send_email_returns_none_both_ways :
  messages_send (apis (Return sent_response) (Raise unavailable))
                (mk_service "gmail" "v1" token) "me" "UmF3IG1lc3NhZ2U="
  = Return [("id", JStr "198a7c3e5f"); ("threadId", JStr "198a7c3e5f")]
  /\ fst (send_email (apis (Return sent_response) (Raise unavailable))
                     "jane.doe@example.com" "hr@example.com" "Interview"
                     "Hello Jane" signed_in)
     = Return None
  /\ messages_send (apis (Raise unavailable) (Raise unavailable))
                   (mk_service "gmail" "v1" token) "me" "UmF3IG1lc3NhZ2U="
     = Raise unavailable
  /\ fst (send_email (apis (Raise unavailable) (Raise unavailable))
                     "jane.doe@example.com" "hr@example.com" "Interview"
                     "Hello Jane" signed_in)
     = Return None.
Proof. repeat split; reflexivity. Qed.

End EmailSendFacts.

(* ===================================================================== *)
(** * [MeetingScheduler.schedule]                                         *)
(* ===================================================================== *)

Module ScheduleFacts.
Import Google Scheduler GoogleDoubles.

(** Building the event body always returns and changes nothing. *)
Lemma build_event_body_returns (env : Env) (self : MeetingScheduler)
      (s : State World) :
  exists body, _build_event_body env self s = (Return body, s).
Proof. eexists. unfold _build_event_body. run. reflexivity. Qed.

(** C10: [schedule] sends the event body to the Calendar API; when the
    call succeeds it returns the created event, when the call raises an
    [HttpError] it prints the error and returns [None]; in both cases the
    scheduler it hands back is the one it was called on.  An [HttpError]
    never reaches the caller: only an exception of another class does. *)
Theorem schedule_outcome (env : Env) (self : MeetingScheduler)
        (s : State World) :
  exists body,
    _build_event_body env self s = (Return body, s)
    /\ let requested :=
         mk_world (token_file (world s)) (sent (world s))
                  (inserted (world s) ++ [body])%list in
       schedule env self s
       = match events_insert env (service self) "primary" body true 1 with
         | Return created_event =>
             (Return (self, Some created_event),
              mk_state
                (stdout s
                 ++ [ (LF ++ "✅ Success! Meeting scheduled.")%string;
                      ("🔗 Google Meet Link: "
                       ++ str env (dict_get created_event "hangoutLink"))%string;
                      ("📅 View on Google Calendar: "
                       ++ str env (dict_get created_event "htmlLink"))%string ])%list
                requested)
         | Raise e =>
             if is_HttpError e
             then (Return (self, None),
                   mk_state (stdout s ++ [("❌ An error occurred: " ++ exn_msg e)%string])%list
                            requested)
             else (Raise e, mk_state (stdout s) requested)
         end.
Proof.
  eexists. split.
  - unfold _build_event_body. run. reflexivity.
  - cbv zeta. unfold schedule, _build_event_body, try_except. run.
    destruct (events_insert env _ _ _ _ _) as [created|e]; simpl.
    + rewrite <- !app_assoc. reflexivity.
    + destruct (is_HttpError e); reflexivity.
Qed.

(** The meeting of [test.py]: 5 August 2025, 14:00 to 15:30 in
    Asia/Kolkata. *)
Example isoformat_of_the_test_meeting :
  isoformat (mk_datetime 2025 8 5 14 0 0 0 (Some 330%Z)) = "2025-08-05T14:00:00+05:30"
  /\ isoformat (mk_datetime 2025 8 5 15 30 0 0 (Some 330%Z)) = "2025-08-05T15:30:00+05:30".
Proof. split; reflexivity. Qed.

Example schedule_when_the_api_is_down :
  let self :=
    mk_scheduler "Quarterly Business Review"
                 "Review of Q3 performance and planning for Q4."
                 (mk_datetime 2025 8 5 14 0 0 0 (Some 330%Z))
                 (mk_datetime 2025 8 5 15 30 0 0 (Some 330%Z))
                 ["b418024@iiit-bh.ac.in"; "sunitamohanty.120@gmail.com"]
                 token (mk_service "calendar" "v3" token) in
  fst (schedule (apis (Raise unavailable) (Raise unavailable)) self signed_in)
  = Return (self, None)
  /\ fst (schedule (apis (Raise unavailable) (Return created_event)) self signed_in)
     = Return (self, Some created_event).
Proof. split; reflexivity. Qed.

End ScheduleFacts.

(* ===================================================================== *)
(** * [get_credentials] (both API scripts)                                *)
(* ===================================================================== *)

Module CredentialFacts.
Import Google AuthDoubles.

Section Generic.
Variable env : Env.
Variables (scopes : list string) (secrets token_path : string).

(** Reading the token file fails: the error goes to the caller as it is
    and nothing is written. *)
Lemma get_credentials_read_failure (s : State World) (text : string) (e : exn) :
  token_file (world s) = Some text ->
  from_authorized_user_file env token_path text scopes = Raise e ->
  get_credentials env scopes secrets token_path s = (Raise e, s).
Proof.
  intros Hfile Hread. unfold get_credentials. run.
  rewrite Hfile. run. rewrite Hread. reflexivity.
Qed.

(** A valid stored token is returned as it is: no refresh, no consent
    flow, and the token file is not rewritten. *)
Theorem get_credentials_reuses_valid_token (s : State World) (text : string)
        (c : Credentials) :
  token_file (world s) = Some text ->
  from_authorized_user_file env token_path text scopes = Return c ->
  valid c = true ->
  get_credentials env scopes secrets token_path s = (Return c, s).
Proof.
  intros Hfile Hread Hvalid. unfold get_credentials. run.
  rewrite Hfile. run. rewrite Hread. simpl. rewrite Hvalid. reflexivity.
Qed.

(** Whenever credentials are returned, either they are the valid ones of
    the token file, which is left as it was, or the token file now holds
    their JSON form.  Nothing is printed and no API request is made. *)
Theorem get_credentials_persists_token (s s' : State World) (c : Credentials) :
  get_credentials env scopes secrets token_path s = (Return c, s') ->
  stdout s' = stdout s
  /\ sent (world s') = sent (world s)
  /\ inserted (world s') = inserted (world s)
  /\ ((s' = s /\ valid c = true
       /\ exists text, token_file (world s) = Some text
                       /\ from_authorized_user_file env token_path text scopes = Return c)
      \/ token_file (world s') = Some (to_json c)).
Proof.
  unfold get_credentials, write_token, run_flow. run.
  destruct (token_file (world s)) as [text|] eqn:Hfile; run.
  - destruct (from_authorized_user_file env token_path text scopes) as [c0|e] eqn:Hread;
      simpl; [|discriminate].
    destruct (valid c0) eqn:Hvalid.
    + intros [= <- <-]. repeat split; auto. left. repeat split; auto.
      exists text. auto.
    + destruct (expired c0 && truthy_opt_str (refresh_token c0)).
      * destruct (refresh env c0) as [c1|e]; simpl; [|discriminate].
        destruct (open_write env token_path) as [u|e]; simpl; [|discriminate].
        intros [= <- <-]. simpl. auto.
      * destruct (run_local_server env secrets scopes) as [c1|e]; simpl; [|discriminate].
        destruct (open_write env token_path) as [u|e]; simpl; [|discriminate].
        intros [= <- <-]. simpl. auto.
  - destruct (run_local_server env secrets scopes) as [c1|e]; simpl; [|discriminate].
    destruct (open_write env token_path) as [u|e]; simpl; [|discriminate].
    intros [= <- <-]. simpl. auto.
Qed.

(** A stored token that cannot be read, or cannot be refreshed, is fatal:
    the error is raised, the token file is left as it was, and the consent
    flow is not tried, whatever it would have given. *)
Theorem get_credentials_stored_token_failure (s : State World) (text : string) :
  token_file (world s) = Some text ->
  (forall e,
      from_authorized_user_file env token_path text scopes = Raise e ->
      get_credentials env scopes secrets token_path s = (Raise e, s))
  /\ (forall c e,
         from_authorized_user_file env token_path text scopes = Return c ->
         valid c = false ->
         expired c = true ->
         truthy_opt_str (refresh_token c) = true ->
         refresh env c = Raise e ->
         get_credentials env scopes secrets token_path s = (Raise e, s)).
Proof.
  intros Hfile. split.
  - intros e Hread. unfold get_credentials. run.
    rewrite Hfile. run. rewrite Hread. reflexivity.
  - intros c e Hread Hvalid Hexpired Htoken Hrefresh.
    unfold get_credentials. run.
    rewrite Hfile. run. rewrite Hread. simpl.
    rewrite Hvalid, Hexpired, Htoken. simpl. rewrite Hrefresh. reflexivity.
Qed.

(** The consent flow runs when there is no token file, and when the stored
    token is invalid and either not expired or without a refresh token
    ([None] or the empty string).  Its credentials are returned and their
    JSON form is written to the token file; a failure of the flow or of
    opening the file is raised and nothing is written. *)
Theorem get_credentials_runs_consent_flow (s : State World) :
  token_file (world s) = None
  \/ (exists text c,
         token_file (world s) = Some text
         /\ from_authorized_user_file env token_path text scopes = Return c
         /\ valid c = false
         /\ (expired c = false \/ truthy_opt_str (refresh_token c) = false)) ->
  get_credentials env scopes secrets token_path s
  = match run_local_server env secrets scopes with
    | Raise e => (Raise e, s)
    | Return c =>
        match open_write env token_path with
        | Raise e => (Raise e, s)
        | Return _ =>
            (Return c,
             mk_state (stdout s)
                      (mk_world (Some (to_json c)) (sent (world s))
                                (inserted (world s))))
        end
    end.
Proof.
  assert (Hflow :
    (w <- get_world ;;
     fresh <- run_flow env scopes secrets ;;
     write_token env token_path fresh ;;; ret fresh) s
    = match run_local_server env secrets scopes with
      | Raise e => (Raise e, s)
      | Return c =>
          match open_write env token_path with
          | Raise e => (Raise e, s)
          | Return _ =>
              (Return c,
               mk_state (stdout s)
                        (mk_world (Some (to_json c)) (sent (world s))
                                  (inserted (world s))))
          end
      end).
  { unfold write_token, run_flow. run.
    destruct (run_local_server env secrets scopes) as [c|e]; simpl; [|reflexivity].
    destruct (open_write env token_path) as [u|e]; reflexivity. }
  intros [Hnone | (text & c & Hfile & Hread & Hvalid & Hwhy)].
  - rewrite <- Hflow. unfold get_credentials. run. rewrite Hnone. reflexivity.
  - rewrite <- Hflow. unfold get_credentials. run.
    rewrite Hfile. run. rewrite Hread. simpl. rewrite Hvalid.
    destruct Hwhy as [-> | Hno]; simpl; [reflexivity|].
    rewrite Hno, andb_false_r. reflexivity.
Qed.

End Generic.

Lemma get_credentials_reuses_valid_token_witness :
  get_credentials (GoogleDoubles.apis (Raise GoogleDoubles.unavailable)
                                      (Raise GoogleDoubles.unavailable))
                  Scheduler.SCOPES Scheduler.CREDENTIALS_FILE Scheduler.TOKEN_FILE
                  GoogleDoubles.signed_in
  = (Return GoogleDoubles.token, GoogleDoubles.signed_in).
Proof.
  apply (@get_credentials_reuses_valid_token _ _ _ _ GoogleDoubles.signed_in "{token}");
    reflexivity.
Defined.

Lemma get_credentials_persists_token_witness :
  token_file (world (snd (get_credentials
                            (auth (Return stale) (Return renewed) (Return consented) (Return []))
                            EmailCandidate.SCOPES EmailCandidate.CREDENTIALS_FILE
                            EmailCandidate.TOKEN_FILE with_token)))
  = Some "{renewed}".
Proof.
  destruct (@get_credentials_persists_token
              (auth (Return stale) (Return renewed) (Return consented) (Return []))
              EmailCandidate.SCOPES EmailCandidate.CREDENTIALS_FILE
              EmailCandidate.TOKEN_FILE with_token
              (mk_state [] (mk_world (Some "{renewed}") [] [])) renewed eq_refl)
    as (_ & _ & _ & [(Hsame & _) | Hfile]).
  - discriminate Hsame.
  - reflexivity.
Defined.

Lemma get_credentials_stored_token_failure_witness :
  get_credentials (auth (Raise corrupt) (Return renewed) (Return consented) (Return []))
                  EmailCandidate.SCOPES EmailCandidate.CREDENTIALS_FILE
                  EmailCandidate.TOKEN_FILE with_token
  = (Raise corrupt, with_token)
  /\ get_credentials (auth (Return stale) (Raise revoked) (Return consented) (Return []))
                     EmailCandidate.SCOPES EmailCandidate.CREDENTIALS_FILE
                     EmailCandidate.TOKEN_FILE with_token
     = (Raise revoked, with_token).
Proof.
  split.
  - refine (proj1 (@get_credentials_stored_token_failure _ _ _ _ with_token "{stale}" _)
                  corrupt _); reflexivity.
  - refine (proj2 (@get_credentials_stored_token_failure _ _ _ _ with_token "{stale}" _)
                  stale revoked _ _ _ _ _); reflexivity.
Defined.

Lemma get_credentials_runs_consent_flow_witness :
  get_credentials (auth (Return stale) (Return renewed) (Return consented) (Return []))
                  Scheduler.SCOPES Scheduler.CREDENTIALS_FILE Scheduler.TOKEN_FILE
                  first_run
  = (Return consented, mk_state [] (mk_world (Some "{consented}") [] [])).
Proof.
  refine (@get_credentials_runs_consent_flow _ _ _ _ first_run _).
  left. reflexivity.
Defined.

End CredentialFacts.

(* ===================================================================== *)
(** * [send_email]: failures before and after the request                 *)
(* ===================================================================== *)

Module EmailEdgeFacts.
Import Google EmailCandidate AuthDoubles.

(** Without credentials nothing is sent: a failure of [get_credentials]
    is printed, the call returns [None] and no request reaches Gmail. *)
Theorem send_email_without_credentials_sends_nothing (env : Env)
        (recipient sender subject body : string) (s s1 : State World) (e : exn) :
  get_credentials env s = (Raise e, s1) ->
  is_Exception e = true ->
  send_email env recipient sender subject body s
  = (Return None,
     mk_state (stdout s1
               ++ [if is_HttpError e
                   then ("❌ An error occurred: " ++ exn_msg e)%string
                   else ("An unexpected error occurred: " ++ exn_msg e)%string])%list
              (world s1)).
Proof.
  intros Hcreds Hexc. unfold send_email, try_except. run.
  rewrite Hcreds. simpl.
  destruct (is_HttpError e); [reflexivity|]. rewrite Hexc. reflexivity.
Qed.

Lemma send_email_without_credentials_sends_nothing_witness :
  send_email (auth (Raise corrupt) (Return renewed) (Return consented)
                   (Return GoogleDoubles.sent_response))
             "jane.doe@example.com" "hr@example.com" "Interview" "Hello Jane"
             with_token
  = (Return None,
     mk_state ["An unexpected error occurred: Expecting value: line 1 column 1 (char 0)"]
              (mk_world (Some "{stale}") [] [])).
Proof.
  refine (@send_email_without_credentials_sends_nothing _ _ _ _ _
            with_token with_token corrupt _ _); reflexivity.
Defined.

(** A response without the key [id]: the message has been handed to
    Gmail, yet the call reports an unexpected error, the [KeyError] of the
    lookup, and returns [None]. *)
Theorem send_email_response_without_id (env : Env)
        (recipient sender subject body : string) (s s1 : State World)
        (creds : Credentials) (service : Service) (raw : string)
        (response : dict) :
  get_credentials env s = (Return creds, s1) ->
  build env "gmail" "v1" creds = Return service ->
  encode_message env
    (mk_message body [("To", recipient); ("From", sender); ("Subject", subject)])
  = Return raw ->
  messages_send env service "me" raw = Return response ->
  dict_get response "id" = None ->
  send_email env recipient sender subject body s
  = (Return None,
     mk_state (stdout s1 ++ ["An unexpected error occurred: 'id'"])%list
              (mk_world (token_file (world s1))
                        (sent (world s1) ++ [("me", raw)])%list
                        (inserted (world s1)))).
Proof.
  intros Hcreds Hbuild Hraw Hsend Hid.
  unfold send_email, try_except. run.
  rewrite Hcreds, Hbuild, Hraw. simpl. rewrite Hsend. simpl.
  unfold dict_getitem. rewrite Hid. reflexivity.
Qed.

Lemma send_email_response_without_id_witness :
  send_email (GoogleDoubles.apis (Return [("threadId", JStr "198a7c3e5f")])
                                 (Raise GoogleDoubles.unavailable))
             "jane.doe@example.com" "hr@example.com" "Interview" "Hello Jane"
             GoogleDoubles.signed_in
  = (Return None,
     mk_state ["An unexpected error occurred: 'id'"]
              (mk_world (Some "{token}") [("me", "UmF3IG1lc3NhZ2U=")] [])).
Proof.
  refine (@send_email_response_without_id _ _ _ _ _
            GoogleDoubles.signed_in GoogleDoubles.signed_in GoogleDoubles.token
            (mk_service "gmail" "v1" GoogleDoubles.token) "UmF3IG1lc3NhZ2U="
            [("threadId", JStr "198a7c3e5f")] _ _ _ _ _); reflexivity.
Defined.

End EmailEdgeFacts.

(* ===================================================================== *)
(** * [MeetingScheduler]: construction, requests, and the script          *)
(* ===================================================================== *)

Module SchedulerEdgeFacts.
Import Google Scheduler TestScript AuthDoubles.

(** Construction has no guard: a token file that cannot be read makes
    [MeetingScheduler(...)] raise, and no scheduler is built. *)
Theorem scheduler_init_unreadable_token (env : Env) (summary description : string)
        (start_time end_time : datetime) (attendees : list string)
        (s : State World) (text : string) (e : exn) :
  token_file (world s) = Some text ->
  from_authorized_user_file env TOKEN_FILE text SCOPES = Raise e ->
  __init__ env summary description start_time end_time attendees s = (Raise e, s).
Proof.
  intros Hfile Hread. unfold __init__, get_credentials. run.
  rewrite (CredentialFacts.get_credentials_read_failure _ _ _ _ _ Hfile Hread).
  reflexivity.
Qed.

Lemma scheduler_init_unreadable_token_witness :
  __init__ (auth (Raise corrupt) (Return renewed) (Return consented)
                 (Return GoogleDoubles.created_event))
           "Quarterly Business Review" "Review"
           (mk_datetime 2025 8 5 14 0 0 0 (Some 330%Z))
           (mk_datetime 2025 8 5 15 30 0 0 (Some 330%Z))
           ["b418024@iiit-bh.ac.in"] with_token
  = (Raise corrupt, with_token).
Proof.
  refine (@scheduler_init_unreadable_token _ _ _ _ _ _ with_token "{stale}" corrupt _ _);
    reflexivity.
Defined.

(** Every call of [schedule], whether it returns or raises, hands exactly
    one insert request to the Calendar API; the token file and the mails
    sent are left as they were. *)
Theorem schedule_makes_one_request (env : Env) (self : MeetingScheduler)
        (s : State World) :
  exists body,
    inserted (world (snd (schedule env self s))) = (inserted (world s) ++ [body])%list
    /\ dict_get (match body with JDict fields => fields | _ => [] end) "attendees"
       = Some (JList (map (fun email => JDict [("email", JStr email)]) (attendees self)))
    /\ token_file (world (snd (schedule env self s))) = token_file (world s)
    /\ sent (world (snd (schedule env self s))) = sent (world s).
Proof.
  eexists. unfold schedule, _build_event_body, try_except. run.
  destruct (events_insert env _ _ _ _ _) as [created|e]; simpl.
  - repeat split; reflexivity.
  - destruct (is_HttpError e); simpl; repeat split; reflexivity.
Qed.

(** The script: when signing in fails the error leaves [main] and no
    request is made; when the scheduler is built and the Calendar API
    answers with an [HttpError], [main] still ends normally, the error
    having only been printed, after one insert request. *)
Theorem main_outcome (env : Env) (localize : string -> datetime -> datetime)
        (s s1 : State World) :
  (forall e, get_credentials env s = (Raise e, s1) ->
             main env localize s = (Raise e, s1))
  /\ (forall creds service e,
         get_credentials env s = (Return creds, s1) ->
         build env "calendar" "v3" creds = Return service ->
         (forall body, events_insert env service "primary" body true 1 = Raise e) ->
         is_HttpError e = true ->
         exists body,
           main env localize s
           = (Return tt,
              mk_state (stdout s1 ++ [("❌ An error occurred: " ++ exn_msg e)%string])%list
                       (mk_world (token_file (world s1)) (sent (world s1))
                                 (inserted (world s1) ++ [body])%list))).
Proof.
  split.
  - intros e Hcreds. unfold main, __init__. run. rewrite Hcreds. reflexivity.
  - intros creds service e Hcreds Hbuild Hinsert Hhttp.
    eexists. unfold main, __init__, schedule, _build_event_body, try_except. run.
    rewrite Hcreds, Hbuild. simpl. rewrite Hinsert. simpl. rewrite Hhttp.
    reflexivity.
Qed.

Lemma main_outcome_witness :
  main (auth (Raise corrupt) (Return renewed) (Return consented) (Return []))
       (fun _ d => d) with_token
  = (Raise corrupt, with_token)
  /\ fst (main (GoogleDoubles.apis (Raise GoogleDoubles.unavailable)
                                   (Raise GoogleDoubles.unavailable))
               (fun _ d => d) GoogleDoubles.signed_in)
     = Return tt.
Proof.
  split.
  - refine (proj1 (@main_outcome _ (fun _ d => d) with_token with_token) corrupt _).
    reflexivity.
  - destruct (proj2 (@main_outcome
                       (GoogleDoubles.apis (Raise GoogleDoubles.unavailable)
                                           (Raise GoogleDoubles.unavailable))
                       (fun _ d => d) GoogleDoubles.signed_in GoogleDoubles.signed_in)
                    GoogleDoubles.token
                    (mk_service "calendar" "v3" GoogleDoubles.token)
                    GoogleDoubles.unavailable eq_refl eq_refl
                    (fun _ => eq_refl) eq_refl) as [body Hmain].
    rewrite Hmain. reflexivity.
Defined.

End SchedulerEdgeFacts.

(* ===================================================================== *)
(** * Pipeline construction: what a built pipeline holds                  *)
(* ===================================================================== *)

Module BuildFacts.
Import RAG RAGSpec Doubles LoadFacts.

(** The loop over the directory entries prints and collects documents; it
    makes no call that the world records. *)
Lemma load_entry_keeps_world (env : Env) (folder filename : string)
      (documents : list Document) (s : State World) :
  world (snd (load_entry env folder documents filename s)) = world s.
Proof.
  unfold load_entry.
  destruct (endswith filename ".pdf"); [|destruct (endswith filename ".docx")].
  - unfold try_except. run.
    destruct (PyPDFLoader env _) as [loader|e]; simpl; [|reflexivity].
    destruct (load loader) as [docs|e]; simpl; [reflexivity|].
    destruct (is_Exception e); reflexivity.
  - unfold try_except. run.
    destruct (Docx2txtLoader env _) as [loader|e]; simpl; [|reflexivity].
    destruct (load loader) as [docs|e]; simpl; [reflexivity|].
    destruct (is_Exception e); reflexivity.
  - reflexivity.
Qed.

Lemma load_loop_keeps_world (env : Env) (folder : string) (names : list string) :
  forall documents s,
    world (snd (for_each names documents (load_entry env folder) s)) = world s.
Proof.
  induction names as [|name names IH]; intros documents s; [reflexivity|].
  rewrite PyFacts.for_each_cons.
  pose proof (load_entry_keeps_world env folder name documents s) as Hstep.
  destruct (load_entry env folder documents name s) as [[documents'|e] s1];
    simpl in Hstep; [|exact Hstep].
  rewrite IH. exact Hstep.
Qed.

Lemma load_documents_keeps_world (env : Env) (folder : string) (s : State World) :
  world (snd (_load_documents_from_folder env folder s)) = world s.
Proof.
  unfold _load_documents_from_folder. unfold bind, call.
  destruct (listdir env folder) as [names|e]; [|reflexivity].
  apply load_loop_keeps_world.
Qed.

(** The fields [__init__] sets. *)
Lemma init_fields (env : Env) (folder : string) (model : LLM)
      (s s' : State World) (rag : ResumeRAG) :
  __init__ env folder model s = (Return rag, s') ->
  folder_path rag = folder /\ llm rag = model
  /\ prompt_template rag = _get_prompt_template.
Proof.
  unfold __init__. unfold bind at 1.
  destruct (_load_and_process_documents env folder s) as [[db|e] s1]; [|discriminate].
  unfold ret. intros [= <- _]. auto.
Qed.

(** A pipeline that has been constructed holds the store that Chroma gave
    for the chunks of a non-empty list of loaded documents, split with
    chunk size 1000 and overlap 200, embedded with all-MiniLM-L6-v2 and
    persisted under [./chroma_db]; that store is the one store the
    construction added, and no retrieval or prompt has been made. *)
Theorem init_returns_indexed_corpus (env : Env) (folder : string) (model : LLM)
        (s s' : State World) (rag : ResumeRAG) :
  __init__ env folder model s = (Return rag, s') ->
  exists documents splits embeddings,
    fst (_load_documents_from_folder env folder
           (mk_state (stdout s ++ [("Loading documents from: " ++ folder)%string])%list
                     (world s)))
    = Return documents
    /\ documents <> []
    /\ split_documents env 1000 200 documents = Return splits
    /\ HuggingFaceEmbeddings env "sentence-transformers/all-MiniLM-L6-v2"
       = Return embeddings
    /\ Chroma_from_documents env splits embeddings "./chroma_db"
       = Return (vectorstore rag)
    /\ world s'
       = mk_world (vector_dbs (world s) ++ [vectorstore rag])%list
                  (retrievals (world s)) (chain_inputs (world s)) (prompts (world s)).
Proof.
  unfold __init__, _load_and_process_documents, chroma_from_documents.
  unfold bind at 1 2. unfold print at 1. unfold bind at 1.
  pose proof (load_documents_keeps_world env folder
                (mk_state (stdout s ++ [("Loading documents from: " ++ folder)%string])%list
                          (world s))) as Hworld.
  destruct (_load_documents_from_folder env folder _) as [[documents|e] s1];
    simpl in Hworld; [|discriminate].
  run. destruct documents as [|d documents]; simpl; [discriminate|].
  destruct (split_documents env 1000 200 (d :: documents)) as [splits|e] eqn:Hsplit;
    simpl; [|discriminate].
  destruct (HuggingFaceEmbeddings env _) as [embeddings|e] eqn:Hemb; simpl; [|discriminate].
  destruct (Chroma_from_documents env splits embeddings _) as [db|e] eqn:Hdb;
    simpl; [|discriminate].
  intros [= <- <-]. exists (d :: documents), splits, embeddings.
  simpl. rewrite Hworld. repeat split; auto. discriminate.
Qed.

Lemma init_returns_indexed_corpus_witness :
  exists documents splits embeddings,
    fst (_load_documents_from_folder
           (libraries ["notes.txt"; "cv.pdf"]
                      (fun _ => Return (mk_loader (Return [cv_document])))
                      no_parser no_pdf)
           "resumes" (mk_state ["Loading documents from: resumes"] world0))
    = Return documents
    /\ documents <> []
    /\ Return documents = Return splits
    /\ Return "sentence-transformers/all-MiniLM-L6-v2" = Return embeddings
    /\ Return (mk_chroma splits embeddings "./chroma_db")
       = Return (mk_chroma [cv_document] "sentence-transformers/all-MiniLM-L6-v2"
                           "./chroma_db")
    /\ mk_world [mk_chroma [cv_document] "sentence-transformers/all-MiniLM-L6-v2"
                           "./chroma_db"] [] [] []
       = mk_world [mk_chroma [cv_document] "sentence-transformers/all-MiniLM-L6-v2"
                             "./chroma_db"] [] [] [].
Proof.
  exact (@init_returns_indexed_corpus
           (libraries ["notes.txt"; "cv.pdf"]
                      (fun _ => Return (mk_loader (Return [cv_document])))
                      no_parser no_pdf)
           "resumes" (fun _ _ => Return "") start _ _
           PipelineFacts.init_on_a_resume).
Defined.

(** From the directory to the store: when every loader can be constructed
    and at least one file gives a document, the pipeline indexes the
    chunks of the documents of the files that load, in directory order;
    unsupported entries and failed loads only add a printed line. *)
Theorem init_indexes_loaded_files (env : Env) (folder : string) (model : LLM)
        (names : list string) (s : State World)
        (splits : list Document) (embeddings : string) (db : Chroma) :
  listdir env folder = Return names ->
  Forall (loads_or_fails env folder) names ->
  flat_map (loaded_from env folder) names <> [] ->
  split_documents env 1000 200 (flat_map (loaded_from env folder) names)
  = Return splits ->
  HuggingFaceEmbeddings env "sentence-transformers/all-MiniLM-L6-v2"
  = Return embeddings ->
  Chroma_from_documents env splits embeddings "./chroma_db" = Return db ->
  __init__ env folder model s
  = (Return (mk_rag folder model db _get_prompt_template),
     mk_state
       (stdout s
        ++ [("Loading documents from: " ++ folder)%string]
        ++ flat_map (notice env folder) names
        ++ [ ("Loaded "
              ++ str_nat (List.length (flat_map (loaded_from env folder) names))
              ++ " documents.")%string;
             ("Split documents into " ++ str_nat (List.length splits)
              ++ " chunks.")%string;
             "Creating vector database...";
             "Vector database created successfully." ])%list
       (mk_world (vector_dbs (world s) ++ [db])%list (retrievals (world s))
                 (chain_inputs (world s)) (prompts (world s)))).
Proof.
  intros Hdir Hnames Hsome Hsplit Hemb Hdb.
  unfold __init__, _load_and_process_documents, chroma_from_documents. run.
  rewrite (load_documents_skips_bad_entries _ Hdir Hnames). simpl.
  destruct (flat_map (loaded_from env folder) names) as [|d documents] eqn:Hdocs;
    [contradiction|].
  simpl. rewrite Hsplit. simpl. rewrite Hemb. simpl. rewrite Hdb. simpl.
  rewrite <- !app_assoc. reflexivity.
Qed.

Lemma init_indexes_loaded_files_witness :
  __init__ (libraries ["notes.txt"; "cv.pdf"]
                      (fun _ => Return (mk_loader (Return [cv_document])))
                      no_parser no_pdf)
           "resumes" (fun _ _ => Return "") start
  = (Return (mk_rag "resumes" (fun _ _ => Return "")
                    (mk_chroma [cv_document]
                               "sentence-transformers/all-MiniLM-L6-v2"
                               "./chroma_db")
                    _get_prompt_template),
     mk_state [ "Loading documents from: resumes";
                "Unsupported file type skipped: notes.txt";
                "Loaded 1 documents.";
                "Split documents into 1 chunks.";
                "Creating vector database...";
                "Vector database created successfully." ]
              (mk_world [mk_chroma [cv_document]
                                   "sentence-transformers/all-MiniLM-L6-v2"
                                   "./chroma_db"] [] [] [])).
Proof.
  refine (@init_indexes_loaded_files
            (libraries ["notes.txt"; "cv.pdf"]
                       (fun _ => Return (mk_loader (Return [cv_document])))
                       no_parser no_pdf)
            "resumes" (fun _ _ => Return "") ["notes.txt"; "cv.pdf"] start
            [cv_document] "sentence-transformers/all-MiniLM-L6-v2"
            (mk_chroma [cv_document] "sentence-transformers/all-MiniLM-L6-v2"
                       "./chroma_db") _ _ _ _ _ _);
    try reflexivity.
  - repeat constructor.
  - discriminate.
Defined.

End BuildFacts.

(* ===================================================================== *)
(** * File extensions are compared as written                             *)
(* ===================================================================== *)

Module ExtensionFacts.
Import RAG RAGSpec Doubles.

Lemma list_of_append (a b : string) :
  list_ascii_of_string (a ++ b)
  = (list_ascii_of_string a ++ list_ascii_of_string b)%list.
Proof. induction a as [|c a IH]; simpl; [reflexivity | now rewrite IH]. Qed.

Lemma length_list_of_string (a : string) :
  List.length (list_ascii_of_string a) = String.length a.
Proof. induction a as [|c a IH]; simpl; [reflexivity | now rewrite IH]. Qed.

Lemma last_app {A} (l1 l2 : list A) (d : A) :
  l2 <> [] -> last (l1 ++ l2)%list d = last l2 d.
Proof.
  intros Hne. induction l1 as [|a l1 IH]; [reflexivity|].
  simpl. destruct (l1 ++ l2)%list eqn:Happ; [|exact IH].
  apply app_eq_nil in Happ. destruct Happ as [_ ->]. contradiction.
Qed.

(** [endswith] holds only when the last characters agree. *)
Lemma endswith_last (s suffix : string) (d : ascii) :
  suffix <> "" ->
  endswith s suffix = true ->
  last (list_ascii_of_string s) d = last (list_ascii_of_string suffix) d.
Proof.
  intros Hne. unfold endswith. intros H.
  apply andb_prop in H. destruct H as [Hlen Heq].
  apply Nat.leb_le in Hlen. apply String.eqb_eq in Heq.
  rewrite <- Heq at 1. rewrite EmailFacts.list_ascii_of_substring.
  set (l := list_ascii_of_string s).
  assert (Hl : List.length l = String.length s) by apply length_list_of_string.
  rewrite firstn_all2 by (rewrite length_skipn; lia).
  rewrite <- (firstn_skipn (String.length s - String.length suffix) l) at 1.
  apply last_app.
  intros Hnil. apply (f_equal (@List.length ascii)) in Hnil.
  rewrite length_skipn in Hnil. simpl in Hnil.
  destruct suffix; [contradiction | simpl in *; lia].
Qed.

Lemma last_of_append (base ext : string) (d : ascii) :
  ext <> "" ->
  last (list_ascii_of_string (base ++ ext)) d = last (list_ascii_of_string ext) d.
Proof.
  intros Hne. rewrite list_of_append. apply last_app.
  destruct ext; [contradiction | discriminate].
Qed.

(** An entry whose extension is written in capitals, [cv.PDF] or
    [cv.DOCX], or is [.doc] or [.txt], is not loaded: no loader is
    constructed for it, the notice is printed and the documents collected
    so far are kept. *)
Theorem load_entry_skips_other_spellings (env : Env) (folder base ext : string)
        (documents : list Document) (s : State World) :
  In ext [".PDF"; ".DOCX"; ".doc"; ".txt"] ->
  load_entry env folder documents (base ++ ext) s
  = (Return documents,
     mk_state (stdout s ++ [("Unsupported file type skipped: " ++ base ++ ext)%string])%list
              (world s)).
Proof.
  intros Hext.
  assert (Hne : ext <> "").
  { intros ->. simpl in Hext. intuition discriminate. }
  assert (Hpdf : endswith (base ++ ext) ".pdf" = false).
  { destruct (endswith (base ++ ext) ".pdf") eqn:H; [|reflexivity].
    apply (endswith_last _ " "%char) in H; [|discriminate].
    rewrite (last_of_append base " "%char Hne) in H.
    simpl in Hext.
    repeat (destruct Hext as [<- | Hext]; [vm_compute in H; discriminate|]).
    contradiction. }
  assert (Hdocx : endswith (base ++ ext) ".docx" = false).
  { destruct (endswith (base ++ ext) ".docx") eqn:H; [|reflexivity].
    apply (endswith_last _ " "%char) in H; [|discriminate].
    rewrite (last_of_append base " "%char Hne) in H.
    simpl in Hext.
    repeat (destruct Hext as [<- | Hext]; [vm_compute in H; discriminate|]).
    contradiction. }
  unfold load_entry. rewrite Hpdf, Hdocx. reflexivity.
Qed.

Lemma load_entry_skips_other_spellings_witness :
  load_entry folder_with_directory_entry "resumes" [cv_document] "jane_doe.PDF" start
  = (Return [cv_document],
     mk_state ["Unsupported file type skipped: jane_doe.PDF"] world0).
Proof.
  refine (@load_entry_skips_other_spellings folder_with_directory_entry
            "resumes" "jane_doe" ".PDF" [cv_document] start _).
  simpl. auto.
Defined.

End ExtensionFacts.

(* ===================================================================== *)
(** * [rate_candidate]: what a request touches and how it can fail        *)
(* ===================================================================== *)

Module RequestFacts.
Import RAG RatingSpec Doubles RatingFacts.

(** A rating request never builds or changes a vector store, sends at
    most one prompt to the model, and sends none when retrieval fails: the
    retriever's error is then the outcome of the request. *)
Theorem rate_candidate_footprint (env : Env) (self : ResumeRAG) (years : Z)
        (skills : list string) (s : State World) :
  let s' := snd (rate_candidate env self years skills s) in
  vector_dbs (world s') = vector_dbs (world s)
  /\ (prompts (world s') = prompts (world s)
      \/ exists prompt, prompts (world s') = (prompts (world s) ++ [prompt])%list)
  /\ match retriever_invoke env (mk_retriever (vectorstore self) 5)
                            (retriever_query years (join ", " skills)) with
     | Raise e =>
         fst (rate_candidate env self years skills s) = Raise e
         /\ prompts (world s') = prompts (world s)
         /\ chain_inputs (world s') = chain_inputs (world s)
     | Return _ => True
     end.
Proof.
  cbv zeta. rewrite rate_candidate_run. cbv zeta.
  destruct (retriever_invoke env _ _) as [docs|e]; simpl.
  - destruct (format _ _) as [prompt|e]; simpl; repeat split; eauto.
  - repeat split; auto.
Qed.

(** For a pipeline that [__init__] has returned, rendering the prompt
    cannot fail: once retrieval has given its chunks, the request fails
    only when the model or the JSON parser fails, and its outcome is then
    theirs. *)
Theorem rate_candidate_on_built_pipeline (env : Env) (folder : string)
        (model : LLM) (s0 s1 : State World) (rag : ResumeRAG)
        (years : Z) (skills : list string) (s : State World)
        (docs : list Document) :
  __init__ env folder model s0 = (Return rag, s1) ->
  retriever_invoke env (mk_retriever (vectorstore rag) 5)
                   (retriever_query years (join ", " skills)) = Return docs ->
  exists prompt,
    format _get_prompt_template
           (chain_input (join (LF ++ LF) (map page_content docs)) years skills)
    = Return prompt
    /\ fst (rate_candidate env rag years skills s)
       = match model (List.length (prompts (world s))) prompt with
         | Raise e => Raise e
         | Return message => JsonOutputParser env message
         end.
Proof.
  intros Hinit Hdocs.
  destruct (BuildFacts.init_fields _ _ _ _ Hinit) as (_ & Hllm & Htemplate).
  destruct (prompt_renders (join (LF ++ LF) (map page_content docs)) years skills)
    as [prompt Hprompt].
  exists prompt. split; [exact Hprompt|].
  rewrite rate_candidate_run. cbv zeta.
  rewrite Hdocs, Htemplate, Hprompt, Hllm. reflexivity.
Qed.

Lemma rate_candidate_on_built_pipeline_witness :
  exists prompt,
    format _get_prompt_template
           (chain_input (join (LF ++ LF) (map page_content [cv_document])) 5
                        ["Python"; "Go"])
    = Return prompt
    /\ fst (rate_candidate
              (libraries ["notes.txt"; "cv.pdf"]
                         (fun _ => Return (mk_loader (Return [cv_document])))
                         no_parser no_pdf)
              (mk_rag "resumes" (fun _ _ => Return "")
                      (mk_chroma [cv_document]
                                 "sentence-transformers/all-MiniLM-L6-v2"
                                 "./chroma_db")
                      _get_prompt_template)
              5 ["Python"; "Go"] start)
       = Raise (mk_exn OutputParserException "Invalid json output: ").
Proof.
  exact (@rate_candidate_on_built_pipeline
           (libraries ["notes.txt"; "cv.pdf"]
                      (fun _ => Return (mk_loader (Return [cv_document])))
                      no_parser no_pdf)
           "resumes" (fun _ _ => Return "") start _ _ 5 ["Python"; "Go"] start
           [cv_document] PipelineFacts.init_on_a_resume eq_refl).
Defined.

End RequestFacts.

(* ===================================================================== *)
(** * [extract_email_from_text]: where the result comes from              *)
(* ===================================================================== *)

Module EmailPieceFacts.
Import Re ReFacts RAG EmailFacts.

(** The address returned is a piece of the text, cut at the leftmost
    position from which the pattern matches; it holds an [@] and has at
    least six characters. *)
Theorem extract_email_is_leftmost_piece (text m : string) :
  extract_email_from_text text = Some m ->
  exists pre post,
    list_ascii_of_string text
    = (pre ++ list_ascii_of_string m ++ post)%list
    /\ match_here email_pattern (list_ascii_of_string text) (List.length pre)
       = Some (List.length pre + String.length m)%nat
    /\ (forall a, (a < List.length pre)%nat ->
                  match_here email_pattern (list_ascii_of_string text) a = None)
    /\ In "@"%char (list_ascii_of_string m)
    /\ (6 <= String.length m)%nat.
Proof.
  intros Hm.
  destruct (extract_email_leftmost _ Hm) as (a & b & -> & Hmatch & Hleft).
  set (s := list_ascii_of_string text) in *.
  destruct (email_match_inv _ _ Hmatch)
    as (k1 & k2 & k3 & (Hk1 & Hk2 & Hk3) & Hb & _ & Hat & _ & _ & Htld & _).
  assert (Hlen : (b <= List.length s)%nat).
  { destruct (Htld (k3 - 1)%nat) as (c & Hc & _); [lia|].
    assert (a + k1 + 1 + k2 + 1 + (k3 - 1) < List.length s)%nat
      by (apply nth_error_Some; congruence).
    lia. }
  assert (Hpiece : list_ascii_of_string (substring a (b - a) text)
                   = firstn (b - a) (skipn a s))
    by apply list_ascii_of_substring.
  assert (Hsize : String.length (substring a (b - a) text) = (b - a)%nat).
  { rewrite <- ExtensionFacts.length_list_of_string, Hpiece.
    rewrite length_firstn, length_skipn. lia. }
  exists (firstn a s), (skipn (b - a) (skipn a s)).
  assert (Hpre : List.length (firstn a s) = a) by (rewrite length_firstn; lia).
  rewrite Hpre, Hsize, Hpiece.
  repeat split.
  - now rewrite !firstn_skipn.
  - replace (a + (b - a))%nat with b by lia. exact Hmatch.
  - exact Hleft.
  - apply nth_error_In with (n := k1).
    rewrite nth_error_firstn, nth_error_skipn.
    replace (k1 <? b - a)%nat with true by (symmetry; apply Nat.ltb_lt; lia).
    exact Hat.
  - lia.
Qed.

Lemma extract_email_is_leftmost_piece_witness :
  exists pre post,
    list_ascii_of_string "Contact: jane.doe+hr@example.co.uk for info"
    = (pre ++ list_ascii_of_string "jane.doe+hr@example.co.uk" ++ post)%list
    /\ match_here email_pattern
         (list_ascii_of_string "Contact: jane.doe+hr@example.co.uk for info")
         (List.length pre)
       = Some (List.length pre + String.length "jane.doe+hr@example.co.uk")%nat
    /\ (forall a, (a < List.length pre)%nat ->
                  match_here email_pattern
                    (list_ascii_of_string "Contact: jane.doe+hr@example.co.uk for info") a
                  = None)
    /\ In "@"%char (list_ascii_of_string "jane.doe+hr@example.co.uk")
    /\ (6 <= String.length "jane.doe+hr@example.co.uk")%nat.
Proof.
  apply (@extract_email_is_leftmost_piece
           "Contact: jane.doe+hr@example.co.uk for info" "jane.doe+hr@example.co.uk").
  vm_compute. reflexivity.
Defined.

End EmailPieceFacts.

(* ===================================================================== *)
(** * Further runs of the statements above                                *)
(* ===================================================================== *)

Module MoreFacts.
Import Re RAG RatingSpec Doubles RatingFacts EmailFacts.

(** An index that returns no chunk does not stop the request: the model
    is asked all the same, with an empty context. *)
Theorem rate_candidate_with_no_chunk (env : Env) (self : ResumeRAG) (years : Z)
        (skills : list string) (s : State World) (prompt : string) :
  retriever_invoke env (mk_retriever (vectorstore self) 5)
                   (retriever_query years (join ", " skills)) = Return [] ->
  format (prompt_template self) (chain_input "" years skills) = Return prompt ->
  rate_candidate env self years skills s
  = (match llm self (List.length (prompts (world s))) prompt with
     | Raise e => Raise e
     | Return message => JsonOutputParser env message
     end,
     mk_state
       (stdout s
        ++ [(LF ++ "Retrieving documents for query: '"
             ++ retriever_query years (join ", " skills) ++ "'")%string;
            "Invoking LLM to generate ratings..."])%list
       (mk_world (vector_dbs (world s))
                 (retrievals (world s)
                  ++ [(retriever_query years (join ", " skills), 5%nat, Return [])])%list
                 (chain_inputs (world s) ++ [chain_input "" years skills])%list
                 (prompts (world s) ++ [prompt])%list)).
Proof.
  intros Hdocs Hprompt. rewrite rate_candidate_run. cbv zeta.
  rewrite Hdocs. simpl map. change (join (LF ++ LF) []) with "".
  rewrite Hprompt. rewrite <- app_assoc. reflexivity.
Qed.

Lemma rate_candidate_with_no_chunk_witness :
  fst (rate_candidate parsing
         (mk_rag "resumes" (fun _ _ => Return full_answer)
                 (mk_chroma [] "sentence-transformers/all-MiniLM-L6-v2" "./chroma_db")
                 _get_prompt_template)
         3 ["Rust"] start)
  = Return (JDict [("work_ex_rating", JInt 9); ("skills_rating", JInt 8)]).
Proof.
  rewrite (@rate_candidate_with_no_chunk parsing
             (mk_rag "resumes" (fun _ _ => Return full_answer)
                     (mk_chroma [] "sentence-transformers/all-MiniLM-L6-v2" "./chroma_db")
                     _get_prompt_template)
             3 ["Rust"] start _ eq_refl eq_refl).
  reflexivity.
Defined.

Lemma extract_email_needs_at_witness :
  extract_email_from_text "call 555-0199 or write to jane at example.com" = None.
Proof.
  apply extract_email_needs_at.
  vm_compute. intros H.
  repeat (destruct H as [H|H]; [discriminate H|]). exact H.
Defined.

Lemma extract_email_shape_without_bar_witness :
  EmailSpec.spec_email_shaped (list_ascii_of_string "jane.doe+hr@example.co.uk") = true.
Proof.
  apply (@extract_email_shape_without_bar
           "Contact: jane.doe+hr@example.co.uk for info" "jane.doe+hr@example.co.uk").
  - vm_compute. reflexivity.
  - vm_compute. intros H.
    repeat (destruct H as [H|H]; [discriminate H|]). exact H.
Defined.

End MoreFacts.

(* ===================================================================== *)
(** * Pipeline construction over a folder with nothing to load            *)
(* ===================================================================== *)

Module EmptyFolderFacts.
Import RAG RAGSpec Doubles EmptyFolderDoubles.

(** C2: the folder holds a single entry [scans.pdf] that is a directory,
    so it holds no loadable document.  Constructing the pipeline fails,
    and no vector store is built, but the error is the [ValueError] of the
    loader's constructor, raised outside the [try] of the loop, and not
    the [ValueError] "No documents found in the specified folder.": the
    check for an empty document list is never reached. *)
Theorem init_on_directory_entry_raises_loader_error :
  loaded_from folder_with_only_a_directory "resumes" "scans.pdf" = []
  /\ __init__ folder_with_only_a_directory "resumes" (fun _ _ => Return "") start
     = (Raise (not_a_file "resumes/scans.pdf"),
        mk_state ["Loading documents from: resumes"] world0)
  /\ not_a_file "resumes/scans.pdf" <> no_documents.
Proof. repeat split; try reflexivity. discriminate. Qed.

End EmptyFolderFacts.
